(** * Console weather application (weatherApi/weatherApp.py)

    A shallow embedding of the Python program: the JSON documents it
    reads, the exceptions it can raise, the console and network effects
    it performs, and its functions [fetch_weather], [format_unix_time],
    [show_weather], [get_units] and [main]. *)

From Stdlib Require Import ZArith String Ascii List Lia DecimalString DecimalZ.
From stdpp Require Import gmap strings.
Import ListNotations.

Local Open Scope string_scope.
Local Open Scope list_scope.
Local Open Scope Z_scope.

Set Warnings "-register-all".

#[local] Arguments String.append !_ _ : simpl nomatch.

(** ** The Python runtime the program runs on

    What CPython and the host decide and the program only uses: the
    float type of parsed JSON numbers with its [repr], its truth value,
    whether it is a nan, and the whole second [datetime.fromtimestamp]
    reads from it ([None] where its conversion to the C [time_t]
    overflows, as it does for the infinities); [repr] of a [str];
    [str.strip] and [str.lower] on text that has a character outside
    ASCII (driven by the Unicode database); and the offset of local time
    from UTC, in seconds, at a given instant, which the C library keeps
    under 25 hours either way. *)
Record runtime := {
  float : Type;
  float_repr : float -> string;
  float_bool : float -> bool;
  float_isnan : float -> bool;
  float_seconds : float -> option Z;
  str_repr : string -> string;
  unicode_strip : string -> string;
  unicode_lower : string -> string;
  utcoffset : Z -> Z;
  utcoffset_bounded : forall t, -90000 < utcoffset t < 90000
}.

(** ** Text: [str.strip] and [str.lower]

    A Python [str] is held as its UTF-8 bytes. On ASCII text both
    methods are written out; other text is handed to the runtime. *)
Module Text.

Definition is_ascii_char (c : ascii) : bool := (N_of_ascii c <? 128)%N.

Fixpoint is_ascii (s : string) : bool :=
  match s with
  | EmptyString => true
  | String c r => is_ascii_char c && is_ascii r
  end.

(** [str.isspace] on one ASCII character: tab, LF, VT, FF, CR, the four
    separators 0x1c-0x1f and the space. *)
Definition is_space (c : ascii) : bool :=
  let n := N_of_ascii c in
  ((9 <=? n) && (n <=? 13) || (28 <=? n) && (n <=? 32))%N.

Definition lower_char (c : ascii) : ascii :=
  let n := N_of_ascii c in
  if ((65 <=? n) && (n <=? 90))%N then ascii_of_N (n + 32) else c.

Fixpoint lower_ascii (s : string) : string :=
  match s with
  | EmptyString => EmptyString
  | String c r => String (lower_char c) (lower_ascii r)
  end.

Fixpoint lstrip (s : string) : string :=
  match s with
  | EmptyString => EmptyString
  | String c r => if is_space c then lstrip r else s
  end.

Fixpoint rstrip (s : string) : string :=
  match s with
  | EmptyString => EmptyString
  | String c r =>
      match rstrip r with
      | EmptyString => if is_space c then EmptyString else String c EmptyString
      | r' => String c r'
      end
  end.

Definition strip_ascii (s : string) : string := rstrip (lstrip s).

(** [s.startswith(p)], byte by byte. *)
Fixpoint has_prefix (p s : string) : bool :=
  match p, s with
  | EmptyString, _ => true
  | String a p', String b s' => Ascii.eqb a b && has_prefix p' s'
  | String _ _, EmptyString => false
  end.

(** A byte between [lo] and [hi]. *)
Definition between (lo hi : N) (c : ascii) : bool :=
  ((lo <=? N_of_ascii c) && (N_of_ascii c <=? hi))%N.

(** Well-formed UTF-8 (RFC 3629): the bytes of a [str] every character
    of which a UTF-8 stream can write. A lone surrogate, which a JSON
    escape such as \ud800 decodes to, has no UTF-8 form: it is held as
    the three bytes ED A0..BF 80..BF, which are not well formed. *)
Fixpoint utf8 (s : string) : bool :=
  match s with
  | EmptyString => true
  | String a r =>
      let n := N_of_ascii a in
      if (n <? 128)%N then utf8 r
      else if between 194 223 a then
        match r with
        | String b r' => between 128 191 b && utf8 r'
        | _ => false
        end
      else if between 224 239 a then
        match r with
        | String b (String c r') =>
            (if (n =? 224)%N then between 160 191 b
             else if (n =? 237)%N then between 128 159 b
             else between 128 191 b)
            && between 128 191 c && utf8 r'
        | _ => false
        end
      else if between 240 244 a then
        match r with
        | String b (String c (String d r')) =>
            (if (n =? 240)%N then between 144 191 b
             else if (n =? 244)%N then between 128 143 b
             else between 128 191 b)
            && between 128 191 c && between 128 191 d && utf8 r'
        | _ => false
        end
      else false
  end.

End Text.

(** Decimal text of an integer, as [str] of a Python [int] gives it. *)
Definition str_int (z : Z) : string := NilZero.string_of_int (Z.to_int z).

(** Two-digit, zero-padded field of [strftime] ([%I], [%M]). *)
Definition two_digits (n : Z) : string :=
  if n <? 10 then "0" +:+ str_int n else str_int n.

(** [sep.join(l)]. *)
Fixpoint join (sep : string) (l : list string) : string :=
  match l with
  | [] => ""
  | [x] => x
  | x :: r => x +:+ sep +:+ join sep r
  end.

(** [s] ends with [suffix]. *)
Definition ends_with (s suffix : string) : Prop := exists p, s = p +:+ suffix.

(** ** Exceptions *)

(** The classes of [requests.exceptions] the handlers of [fetch_weather]
    name, with the subclasses that decide which handler fires:
    [ConnectTimeout] derives from both [ConnectionError] and [Timeout],
    [ReadTimeout] from [Timeout], [JSONDecodeError] (raised by
    [response.json()], requests 2.27 and later) and everything else from
    [RequestException]. *)
Inductive requests_class :=
  | HTTPError
  | ConnectionError
  | Timeout
  | ConnectTimeout
  | ReadTimeout
  | JSONDecodeError
  | RequestException.

(** [isinstance(e, base)] for an exception whose class is [c]. *)
Definition isinstance (c base : requests_class) : bool :=
  match base, c with
  | RequestException, _ => true
  | HTTPError, HTTPError => true
  | ConnectionError, (ConnectionError | ConnectTimeout) => true
  | Timeout, (Timeout | ConnectTimeout | ReadTimeout) => true
  | ConnectTimeout, ConnectTimeout => true
  | ReadTimeout, ReadTimeout => true
  | JSONDecodeError, JSONDecodeError => true
  | _, _ => false
  end.

(** A raised exception: the built-in ones the program can meet, one of
    the [requests] hierarchy with its message ([str(err)]), or any other
    class, by name. *)
Inductive exn :=
  | EOFError
  | AttributeError
  | TypeError
  | ValueError
  | OverflowError
  | OSError
  | RequestsError (c : requests_class) (msg : string)
  | OtherError (name : string).

(** What running a piece of the program gives: a value, an exception, or
    [Diverged] when it does not end (a loop that has used up its fuel, a
    request that is never answered). *)
Inductive result (A : Type) :=
  | Ok (a : A)
  | Raise (e : exn)
  | Diverged.
Arguments Ok {A} a.
Arguments Raise {A} e.
Arguments Diverged {A}.

(** ** An instance of the runtime *)

(** The IEEE special values, which [json] decodes from Infinity,
    -Infinity and NaN. *)
Inductive special_float := PosInf | NegInf | NaN.

(** A runtime to run examples on: its clock is UTC; its only floats
    are the special values, none of which has a second; [repr] of a
    [str] puts it between single quotes (right for text with no quote,
    backslash or control character); text outside ASCII is left as it
    is by [strip] and [lower]. *)
Definition utc_runtime : runtime := {|
  float := special_float;
  float_repr := fun f =>
    match f with PosInf => "inf" | NegInf => "-inf" | NaN => "nan" end;
  float_bool := fun _ => true;
  float_isnan := fun f => match f with NaN => true | _ => false end;
  float_seconds := fun _ => None;
  str_repr := fun s => "'" +:+ s +:+ "'";
  unicode_strip := fun s => s;
  unicode_lower := fun s => s;
  utcoffset := fun _ => 0;
  utcoffset_bounded := fun _ => conj eq_refl eq_refl
|}.

Declare Scope prog_scope.
Delimit Scope prog_scope with prog.

Section Program.

Context (rt : runtime).

(** ** Text methods *)

Definition strip (s : string) : string :=
  if Text.is_ascii s then Text.strip_ascii s else unicode_strip rt s.

Definition lower (s : string) : string :=
  if Text.is_ascii s then Text.lower_ascii s else unicode_lower rt s.

(** ** JSON documents, as [response.json()] builds them

    A [dict] is held as its items in insertion order; looking a key up
    takes its first binding. *)
Inductive json :=
  | JNull
  | JBool (b : bool)
  | JInt (z : Z)
  | JFloat (f : float rt)
  | JStr (s : string)
  | JList (l : list json)
  | JObj (items : list (string * json)).

Fixpoint lookup_key (k : string) (items : list (string * json)) : option json :=
  match items with
  | [] => None
  | (k', v) :: r => if String.eqb k k' then Some v else lookup_key k r
  end.

(** The empty dict [{}]. *)
Definition empty_dict : json := JObj [].

(** [obj.get(key, default)]: only a dict has the method. *)
Definition py_get (obj : json) (key : string) (default : json) : result json :=
  match obj with
  | JObj items =>
      Ok (match lookup_key key items with
          | Some v => v
          | None => default
          end)
  | _ => Raise AttributeError
  end.

(** [repr(x)]. *)
Fixpoint py_repr (j : json) : string :=
  match j with
  | JNull => "None"
  | JBool true => "True"
  | JBool false => "False"
  | JInt z => str_int z
  | JFloat f => float_repr rt f
  | JStr s => str_repr rt s
  | JList l => "[" +:+ join ", " (map py_repr l) +:+ "]"
  | JObj items =>
      "{" +:+ join ", " (map (fun kv => let '(k, v) := kv in
                                str_repr rt k +:+ ": " +:+ py_repr v) items) +:+ "}"
  end.

(** [str(x)], which is also what an f-string field [{x}] renders. *)
Definition py_str (j : json) : string :=
  match j with
  | JStr s => s
  | _ => py_repr j
  end.

(** Truth value of [x] in [if x:]. *)
Definition truthy (j : json) : bool :=
  match j with
  | JNull => false
  | JBool b => b
  | JInt z => negb (z =? 0)
  | JFloat f => float_bool rt f
  | JStr s => negb (String.eqb s "")
  | JList l => match l with [] => false | _ => true end
  | JObj items => match items with [] => false | _ => true end
  end.

(** ** Local time *)

(** A naive local [datetime], held as local seconds since 1970-01-01. *)
Definition datetime := Z.

(** Bounds of [datetime]: 0001-01-01 00:00:00 and 9999-12-31 23:59:59. *)
Definition datetime_min : Z := -62135596800.
Definition datetime_max : Z := 253402300799.

(** The C types behind [datetime.fromtimestamp], as on a POSIX host
    with the GNU C library: [time_t] has 64 bits, and [localtime] breaks
    down the instants whose local year fits the [int] of [tm_year],
    that is from year -2147481748 to year 2147485547. *)
Definition time_t_min : Z := -9223372036854775808.
Definition time_t_max : Z := 9223372036854775807.
Definition localtime_min : Z := -67768040609740800.
Definition localtime_max : Z := 67768036191676799.

(** The conversion of the argument to [time_t]: anything but a number
    is a [TypeError], a nan a [ValueError], and a number [time_t]
    cannot hold an [OverflowError]. *)
Definition object_to_time_t (x : json) : result Z :=
  let fits (t : Z) : result Z :=
    if (time_t_min <=? t) && (t <=? time_t_max) then Ok t
    else Raise OverflowError in
  match x with
  | JInt t => fits t
  | JBool b => fits (Z.b2z b)
  | JFloat f =>
      if float_isnan rt f then Raise ValueError
      else match float_seconds rt f with
           | Some t => fits t
           | None => Raise OverflowError
           end
  | _ => Raise TypeError
  end.

(** The local time at the instant [u], in seconds: [localtime] fails
    with [OSError] beyond its range, and a year outside 1..9999 is a
    [ValueError]. *)
Definition local_seconds (u : Z) : result Z :=
  let s := u + utcoffset rt u in
  if (s <? localtime_min) || (localtime_max <? s) then Raise OSError
  else if (s <? datetime_min) || (datetime_max <? s) then Raise ValueError
  else Ok s.

(** How far back [fromtimestamp] looks for a repeated hour. *)
Definition max_fold_seconds : Z := 86400.

(** [datetime.fromtimestamp(x)] with no [tz], as CPython computes it:
    the argument is converted to [time_t] and broken down to local
    time; then, to tell whether that wall-clock time is the second of
    two (a fold), the local time a day earlier is computed too and, if
    the offset from UTC has gone down in that day, also the local time
    at the instant moved back by the difference. Each of these steps
    can raise, in this order. *)
Definition fromtimestamp (x : json) : result datetime :=
  match object_to_time_t x with
  | Ok timet =>
      match local_seconds timet with
      | Ok result_seconds =>
          match local_seconds (timet - max_fold_seconds) with
          | Ok probe_seconds =>
              let transition := result_seconds - probe_seconds - max_fold_seconds in
              if transition <? 0 then
                match local_seconds (timet + transition) with
                | Ok _ => Ok result_seconds
                | Raise e => Raise e
                | Diverged => Diverged
                end
              else Ok result_seconds
          | Raise e => Raise e
          | Diverged => Diverged
          end
      | Raise e => Raise e
      | Diverged => Diverged
      end
  | Raise e => Raise e
  | Diverged => Diverged
  end.

Definition hour (d : datetime) : Z := (d mod 86400) / 3600.
Definition minute (d : datetime) : Z := (d mod 3600) / 60.

(** [d.strftime("%I:%M %p")]: hour on the 12-hour clock, minute, and
    AM or PM as the C locale writes them. *)
Definition strftime_I_M_p (d : datetime) : string :=
  let h12 := if hour d mod 12 =? 0 then 12 else hour d mod 12 in
  two_digits h12 +:+ ":" +:+ two_digits (minute d) +:+ " "
  +:+ (if hour d <? 12 then "AM" else "PM").

(** ** Effects: console, environment and network *)

(** What the program does to the outside, in order: a [print(s)], the
    prompt written by an [input(prompt)], and a [requests.get]. *)
Inductive event :=
  | Print (s : string)
  | Prompt (s : string)
  | HttpGet (url : string) (params : list (string * string)).

(** A [requests.Response], as far as the program looks at it: the status
    code, the message [raise_for_status] gives its [HTTPError], and what
    [json()] makes of the body: the document it decodes, or the
    exception it raises. That is a [JSONDecodeError] of [requests] for a
    body that is not JSON; the decoder's other exceptions come through
    as they are (a [RecursionError] for a body nested too deep, a
    [ValueError] for an integer of too many digits). *)
Record response := {
  status_code : Z;
  http_error : string;
  json_body : exn + json
}.

(** The world: the lines still to be read from standard input, the
    events so far, the process environment, the variables of the [.env]
    file, and the remote end, which answers a request (given all that
    has happened before) with a response, by making [requests.get]
    raise, or not at all ([Diverged]: the call sets no timeout). *)
Record world := {
  stdin : list string;
  trace : list event;
  environ : gmap string string;
  dotenv : gmap string string;
  remote : list event -> string -> list (string * string) -> result response
}.

Definition emit (ev : event) (w : world) : world :=
  {| stdin := stdin w; trace := trace w ++ [ev]; environ := environ w;
     dotenv := dotenv w; remote := remote w |}.

Definition set_stdin (lines : list string) (w : world) : world :=
  {| stdin := lines; trace := trace w; environ := environ w;
     dotenv := dotenv w; remote := remote w |}.

Definition set_environ (env : gmap string string) (w : world) : world :=
  {| stdin := stdin w; trace := trace w; environ := env;
     dotenv := dotenv w; remote := remote w |}.

(** Computations: state passing over the world, with exceptions. *)
Definition M (A : Type) : Type := world -> result A * world.

Definition ret {A} (a : A) : M A := fun w => (Ok a, w).

Definition bind {A B} (m : M A) (k : A -> M B) : M B :=
  fun w =>
    match m w with
    | (Ok a, w') => k a w'
    | (Raise e, w') => (Raise e, w')
    | (Diverged, w') => (Diverged, w')
    end.

Definition lift {A} (r : result A) : M A := fun w => (r, w).

Definition raise {A} (e : exn) : M A := lift (Raise e).

Notation "x <- m ;; k" := (bind m (fun x => k))
  (at level 100, m at next level, right associativity) : prog_scope.
Notation "m ;; k" := (bind m (fun _ => k))
  (at level 100, right associativity) : prog_scope.
Local Open Scope prog_scope.

(** [try: m except ...:] where [handler e] is the body of the first
    clause that matches [e], if any. *)
Definition try_except {A} (m : M A) (handler : exn -> option (M A)) : M A :=
  fun w =>
    match m w with
    | (Raise e, w') =>
        match handler e with
        | Some h => h w'
        | None => (Raise e, w')
        end
    | r => r
    end.

(** [print(s)], on a standard output that can write [s]. (A text it
    cannot encode, such as one with a lone surrogate on a UTF-8 stream,
    makes [print] raise [UnicodeEncodeError]; the properties that say
    when [show_weather] returns take the texts it prints to be
    [encodable].) *)
Definition print (s : string) : M unit := fun w => (Ok tt, emit (Print s) w).

(** [input(prompt)]: writes the prompt, then reads one line; end of input
    raises [EOFError]. *)
Definition input (prompt : string) : M string :=
  fun w =>
    let w := emit (Prompt prompt) w in
    match stdin w with
    | [] => (Raise EOFError, w)
    | line :: rest => (Ok line, set_stdin rest w)
    end.

(** [load_dotenv()]: the variables of the [.env] file enter the
    environment, those already set keep their value. *)
Definition load_dotenv : M unit :=
  fun w => (Ok tt, set_environ (environ w ∪ dotenv w) w).

(** [os.getenv(name)]. *)
Definition getenv (name : string) : M (option string) :=
  fun w => (Ok (environ w !! name), w).

(** [requests.get(url, params=params)]. *)
Definition requests_get (url : string) (params : list (string * string)) : M response :=
  fun w => (remote w (trace w) url params, emit (HttpGet url params) w).

(** [response.raise_for_status()]: statuses 400 to 599 raise. *)
Definition raise_for_status (r : response) : M unit :=
  if (400 <=? status_code r) && (status_code r <? 600)
  then raise (RequestsError HTTPError (http_error r))
  else ret tt.

(** [response.json()]. *)
Definition response_json (r : response) : M json :=
  match json_body r with
  | inr doc => ret doc
  | inl e => raise e
  end.

(** ** class WeatherClient *)

Record WeatherClient := { api_key : string }.

Definition BASE_URL : string := "https://api.openweathermap.org/data/2.5/weather".

(** The [except] clauses of [fetch_weather], first match first. *)
Definition fetch_handler (e : exn) : option (M (option json)) :=
  match e with
  | RequestsError c err =>
      if isinstance c HTTPError then
        Some (print ("❌ HTTP Error: " +:+ err);; ret None)
      else if isinstance c ConnectionError then
        Some (print "❌ Network connection error. Check your internet.";; ret None)
      else if isinstance c Timeout then
        Some (print "❌ Request timed out.";; ret None)
      else if isinstance c RequestException then
        Some (print ("❌ General request error: " +:+ err);; ret None)
      else None
  | _ => None
  end.

(** [WeatherClient.fetch_weather(self, city, units)]. Python's [None] is
    [JNull]. *)
Definition fetch_weather (self : WeatherClient) (city units : string) : M json :=
  let params := [("q", city); ("appid", api_key self); ("units", units)] in
  returned <- try_except
    (response <- requests_get BASE_URL params;;
     raise_for_status response;;
     doc <- response_json response;;
     ret (Some doc))
    fetch_handler;;
  match returned with
  | Some doc => ret doc
  | None => ret JNull
  end.

(** ** class WeatherDisplay *)

(** [WeatherDisplay.format_unix_time(timestamp)]. *)
Definition format_unix_time (timestamp : json) : result string :=
  match fromtimestamp timestamp with
  | Ok d => Ok (strftime_I_M_p d)
  | Raise e => Raise e
  | Diverged => Diverged
  end.

(** [WeatherDisplay.show_weather(self, data, units)]. *)
Definition show_weather (data : json) (units : string) : M unit :=
  print (String "010" "------ WEATHER INFORMATION ------");;
  name <- lift (py_get data "name" (JStr "Unknown city"));;
  sys <- lift (py_get data "sys" empty_dict);;
  country <- lift (py_get sys "country" (JStr "N/A"));;
  main <- lift (py_get data "main" empty_dict);;
  wind <- lift (py_get data "wind" empty_dict);;
  sys_info <- lift (py_get data "sys" empty_dict);;
  temperature <- lift (py_get main "temp" (JStr "No data"));;
  humidity <- lift (py_get main "humidity" (JStr "No data"));;
  wind_speed <- lift (py_get wind "speed" (JStr "No data"));;
  sunrise <- lift (py_get sys_info "sunrise" JNull);;
  sunset <- lift (py_get sys_info "sunset" JNull);;
  let temperature_unit := if String.eqb units "metric" then "°C" else "°F" in
  print ("Location: " +:+ py_str name +:+ ", " +:+ py_str country);;
  print ("Temperature: " +:+ py_str temperature +:+ temperature_unit);;
  print ("Humidity: " +:+ py_str humidity +:+ "%");;
  print ("Wind Speed: " +:+ py_str wind_speed +:+ " m/s");;
  (if truthy sunrise
   then t <- lift (format_unix_time sunrise);; print ("Sunrise: " +:+ t)
   else ret tt);;
  (if truthy sunset
   then t <- lift (format_unix_time sunset);; print ("Sunset:  " +:+ t)
   else ret tt);;
  print (String.append "--------------------------------" (String "010" "")).

(** ** get_units *)

Definition units_prompt : string := "Choose units – (C)elsius or (F)ahrenheit: ".
Definition city_prompt : string := "Enter a city name (or type 'exit' to quit): ".

(** The [while True:] of [get_units], at most [fuel] turns. *)
Fixpoint get_units_loop (fuel : nat) : M string :=
  match fuel with
  | O => lift Diverged
  | S fuel =>
      line <- input units_prompt;;
      let choice := lower (strip line) in
      if String.eqb choice "c" then ret "metric"
      else if String.eqb choice "f" then ret "imperial"
      else print "Invalid option. Please enter C or F.";; get_units_loop fuel
  end.

(** Every turn reads a line, so one turn more than there are lines left
    is enough. *)
Definition get_units : M string :=
  fun w => get_units_loop (S (length (stdin w))) w.

(** ** main *)

(** How one turn of the loop of [main] ends. *)
Inductive control := Continue | Break.

(** Lines 140-148, what a turn of the loop does with the fetched [data]:
    [None] and a [cod] other than 200 are reported, anything else is
    shown. *)
Definition main_dispatch (data : json) (units : string) : M control :=
  match data with
  | JNull => print (String.append "❌ No data returned. Try again." (String "010" ""));;
             ret Continue
  | _ =>
      cod <- lift (py_get data "cod" JNull);;
      if negb (String.eqb (py_str cod) "200") then
        message <- lift (py_get data "message" (JStr "Unknown error"));;
        print ("❌ Error: " +:+ py_str message +:+ String "." (String "010" ""));;
        ret Continue
      else
        show_weather data units;;
        ret Continue
  end.

(** The body of the [while True:] of [main]. *)
Definition main_body (client : WeatherClient) : M control :=
  line <- input city_prompt;;
  let city := strip line in
  if String.eqb (lower city) "exit" then
    print "Goodbye!";; ret Break
  else
    units <- get_units;;
    data <- fetch_weather client city units;;
    main_dispatch data units.

Fixpoint main_loop (fuel : nat) (client : WeatherClient) : M unit :=
  match fuel with
  | O => lift Diverged
  | S fuel =>
      c <- main_body client;;
      match c with
      | Break => ret tt
      | Continue => main_loop fuel client
      end
  end.

(** [main()]. Every turn of its loop reads a line. *)
Definition main : M unit :=
  load_dotenv;;
  key <- getenv "API_KEY";;
  match key with
  | None | Some "" =>
      print "❌ ERROR: API key not found. Add it to your .env file."
  | Some key =>
      let client := {| api_key := key |} in
      print (String.append "==== Python Weather App ====" (String "010" ""));;
      fun w => main_loop (S (length (stdin w))) client w
  end.

(** ** Vocabulary of the properties *)

(** The events a computation adds to the trace. *)
Definition events_of {A} (m : M A) (w : world) : list event :=
  drop (length (trace w)) (trace (snd (m w))).

(** The texts printed among some events. *)
Fixpoint printed (evs : list event) : list string :=
  match evs with
  | [] => []
  | Print s :: r => s :: printed r
  | _ :: r => printed r
  end.

(** The requests sent among some events. *)
Fixpoint requests (evs : list event) : list event :=
  match evs with
  | [] => []
  | HttpGet u p :: r => HttpGet u p :: requests r
  | _ :: r => requests r
  end.

(** The printed lines that begin with [label]. *)
Definition lines_of (label : string) (evs : list event) : list string :=
  List.filter (Text.has_prefix label) (printed evs).

(** Only [input] takes lines from standard input. *)
Definition keeps_stdin {A} (m : M A) : Prop :=
  forall w, stdin (snd (m w)) = stdin w.

(** The line [main] prints when it finds no API key. *)
Definition no_api_key_message : string :=
  "❌ ERROR: API key not found. Add it to your .env file.".

(** The text the loop reports for a response whose cod is not 200. *)
Definition api_error_line (items : list (string * json)) : string :=
  "❌ Error: " +:+
  match lookup_key "message" items with
  | Some m => py_str m
  | None => "Unknown error"
  end +:+ String "." (String "010" "").

(** The four failure classes, one per [except] clause. *)
Inductive failure_class :=
  | HttpStatus
  | ConnectionFailure
  | TimedOut
  | OtherTransport.

(** The clause that catches an exception of class [c]. *)
Definition handler_class (c : requests_class) : failure_class :=
  if isinstance c HTTPError then HttpStatus
  else if isinstance c ConnectionError then ConnectionFailure
  else if isinstance c Timeout then TimedOut
  else OtherTransport.

(** The line each clause prints; [err] is the text of the exception. *)
Definition failure_message (k : failure_class) (err : string) : string :=
  match k with
  | HttpStatus => "❌ HTTP Error: " +:+ err
  | ConnectionFailure => "❌ Network connection error. Check your internet."
  | TimedOut => "❌ Request timed out."
  | OtherTransport => "❌ General request error: " +:+ err
  end.

(** The document a request yields when it succeeds: an answer whose
    status is not 400..599 and whose body decodes. *)
Definition success_of (answer : result response) : option json :=
  match answer with
  | Ok r =>
      if (400 <=? status_code r) && (status_code r <? 600) then None
      else match json_body r with inr doc => Some doc | inl _ => None end
  | _ => None
  end.

(** The failure a request ends in, if any of the four: an error status,
    or an exception of [requests] raised by the transport or by the
    decoding of the body. *)
Definition failure_of (answer : result response) : option (failure_class * string) :=
  match answer with
  | Ok r =>
      if (400 <=? status_code r) && (status_code r <? 600)
      then Some (HttpStatus, http_error r)
      else match json_body r with
           | inl (RequestsError c err) => Some (handler_class c, err)
           | _ => None
           end
  | Raise (RequestsError c err) => Some (handler_class c, err)
  | _ => None
  end.

(** The exception the body of the [try] ends in, if any: the one
    [requests.get] raises, the [HTTPError] of an error status, or the
    one [response.json()] raises. *)
Definition raised_in_try (answer : result response) : option exn :=
  match answer with
  | Ok r =>
      if (400 <=? status_code r) && (status_code r <? 600)
      then Some (RequestsError HTTPError (http_error r))
      else match json_body r with
           | inl e => Some e
           | inr _ => None
           end
  | Raise e => Some e
  | Diverged => None
  end.

(** The query parameters [fetch_weather] sends. *)
Definition query (self : WeatherClient) (city units : string) : list (string * string) :=
  [("q", city); ("appid", api_key self); ("units", units)].

(** The claim that the value [fetch_weather] returns tells the caller
    which failure occurred. *)
Definition result_tells_failure : Prop :=
  exists classify : json -> failure_class,
    forall self city units w k err v,
      failure_of (remote w (trace w) BASE_URL (query self city units)) = Some (k, err) ->
      fst (fetch_weather self city units w) = Ok v ->
      classify v = k.

(** The banners that open and close the block [show_weather] prints. *)
Definition header : string := String "010" "------ WEATHER INFORMATION ------".
Definition footer : string := String.append "--------------------------------" (String "010" "").

(** The member [key] of a document, when it is a dict that has one. *)
Definition member (data : json) (key : string) : option json :=
  match data with
  | JObj items => lookup_key key items
  | _ => None
  end.

(** The field [key] of the member [section] of a document. *)
Definition field (data : json) (section key : string) : option json :=
  match member data section with
  | Some s => member s key
  | None => None
  end.

(** A present member must be a dict for [.get] to exist on it. *)
Definition is_dict (j : json) : bool :=
  match j with JObj _ => true | _ => false end.

Definition dict_or_absent (o : option json) : bool :=
  match o with Some v => is_dict v | None => true end.

(** The document is a dict, and so is each of its members sys, main and
    wind that is present. *)
Definition well_shaped (data : json) : bool :=
  is_dict data && dict_or_absent (member data "sys")
  && dict_or_absent (member data "main") && dict_or_absent (member data "wind").

(** The text of a field, or [fallback] when it is missing. *)
Definition or_default (o : option json) (fallback : string) : string :=
  py_str (match o with Some v => v | None => JStr fallback end).

(** Local time at the instant [u] falls within the years 1..9999, the
    years [datetime] can hold. *)
Definition in_years (u : Z) : bool :=
  (datetime_min <=? u + utcoffset rt u) && (u + utcoffset rt u <=? datetime_max).

(** [t] seconds since the epoch are an instant [datetime.fromtimestamp]
    takes: local time falls within years 1..9999 at [t], a day before
    [t] and, when the offset from UTC is smaller at [t] than it was a
    day before, at [t] moved back by the difference. (Under a constant
    offset: from the second day of year 1 to the end of year 9999.) *)
Definition in_datetime_range (t : Z) : bool :=
  in_years t && in_years (t - 86400)
  && (let gone := utcoffset rt (t - 86400) - utcoffset rt t in
      (gone <=? 0) || in_years (t - gone)).

(** The second since the epoch a value stands for, when it is a number
    that has one. *)
Definition timestamp_second (v : json) : option Z :=
  match v with
  | JInt t => Some t
  | JBool b => Some (Z.b2z b)
  | JFloat f => if float_isnan rt f then None else float_seconds rt f
  | _ => None
  end.

(** A value [datetime.fromtimestamp] accepts. *)
Definition is_timestamp (v : json) : bool :=
  match timestamp_second v with
  | Some t => in_datetime_range t
  | None => false
  end.

(** A sunrise or sunset that cannot make [show_weather] raise: missing,
    false in [if], or an acceptable timestamp. *)
Definition sun_ok (o : option json) : bool :=
  let v := match o with Some v => v | None => JNull end in
  negb (truthy v) || is_timestamp v.

(** What [show_weather] does with a sunrise or sunset: the line it
    prints, none, or the exception of [format_unix_time]. *)
Definition sun_line (label : string) (o : option json) : result (list event) :=
  let v := match o with Some v => v | None => JNull end in
  if truthy v then
    match format_unix_time v with
    | Ok t => Ok [Print (label +:+ t)]
    | Raise e => Raise e
    | Diverged => Diverged
    end
  else Ok [].

(** The four lines of [show_weather], read off the document. *)
Definition unit_label (units : string) : string :=
  if String.eqb units "metric" then "°C" else "°F".

Definition location_line (data : json) : string :=
  "Location: " +:+ or_default (member data "name") "Unknown city" +:+ ", "
  +:+ or_default (field data "sys" "country") "N/A".

Definition temperature_line (data : json) (units : string) : string :=
  "Temperature: " +:+ or_default (field data "main" "temp") "No data" +:+ unit_label units.

Definition humidity_line (data : json) : string :=
  "Humidity: " +:+ or_default (field data "main" "humidity") "No data" +:+ "%".

Definition wind_line (data : json) : string :=
  "Wind Speed: " +:+ or_default (field data "wind" "speed") "No data" +:+ " m/s".

(** The four lines are text that standard output can write: well-formed
    UTF-8, with no lone surrogate, for a UTF-8 stream. *)
Definition encodable (data : json) (units : string) : bool :=
  forallb Text.utf8 [location_line data; temperature_line data units;
                     humidity_line data; wind_line data].

(** Events and outcome of [show_weather], computed from the document:
    the comparison [show_weather_rendering] below ties the two. *)
Definition rendering (data : json) (units : string) : list event * result unit :=
  if well_shaped data then
    let lines := [Print header; Print (location_line data);
                  Print (temperature_line data units);
                  Print (humidity_line data); Print (wind_line data)] in
    match sun_line "Sunrise: " (field data "sys" "sunrise") with
    | Ok l1 =>
        match sun_line "Sunset:  " (field data "sys" "sunset") with
        | Ok l2 => (lines ++ l1 ++ l2 ++ [Print footer], Ok tt)
        | Raise e => (lines ++ l1, Raise e)
        | Diverged => (lines ++ l1, Diverged)
        end
    | Raise e => (lines, Raise e)
    | Diverged => (lines, Diverged)
    end
  else ([Print header], Raise AttributeError).

(** [text] is the 12-hour reading hh:mm AM/PM of the local time [local]:
    the hour runs over 12, 01, ..., 11, and the minute it names is the
    one [local] falls in. *)
Definition clock_12h (local : Z) (text : string) : Prop :=
  exists (h m : Z) (pm : bool),
    1 <= h <= 12 /\ 0 <= m <= 59 /\
    text = two_digits h +:+ ":" +:+ two_digits m +:+ " "
           +:+ (if pm then "PM" else "AM") /\
    let start := (h mod 12 + (if pm then 12 else 0)) * 3600 + m * 60 in
    start <= local mod 86400 < start + 60.

(** The line [main] prints before its loop. *)
Definition banner : string := String.append "==== Python Weather App ====" (String "010" "").


(** An [int], a [bool] or a float: what [fromtimestamp] takes for a
    number. *)
Definition is_number (v : json) : bool :=
  match v with
  | JInt _ | JBool _ | JFloat _ => true
  | _ => false
  end.


(** A line [get_units] accepts: trimmed and lower-cased it is "c" or
    "f"; and the units it then returns. *)
Definition valid_choice (line : string) : bool :=
  String.eqb (lower (strip line)) "c" || String.eqb (lower (strip line)) "f".

Definition units_of_choice (line : string) : string :=
  if String.eqb (lower (strip line)) "c" then "metric" else "imperial".

(** What [get_units] writes for the lines it rejects: for each one the
    prompt that asked for it and the error that answered it. *)
Definition retries (bad : list string) : list event :=
  flat_map (fun _ => [Prompt units_prompt;
                      Print "Invalid option. Please enter C or F."]) bad.


(** The line the loop prints when [fetch_weather] has returned [None]. *)
Definition no_data_line : string :=
  String.append "❌ No data returned. Try again." (String "010" "").

(** A computation [m] obeys [P], [Q] and [E] when, from any world, it
    only appends events that satisfy [P] to the trace, only takes lines
    off the front of standard input, and ends with a value that
    satisfies [Q] or an exception that satisfies [E]. *)
Definition obeys {A} (P : event -> Prop) (Q : A -> Prop) (E : exn -> Prop)
    (m : M A) : Prop :=
  forall w,
    (exists evs, trace (snd (m w)) = trace w ++ evs /\ Forall P evs) /\
    (exists used, stdin w = used ++ stdin (snd (m w))) /\
    match fst (m w) with
    | Ok a => Q a
    | Raise e => E e
    | Diverged => True
    end.

(** A request as [main] means to send it: to the fixed URL, with the
    API key [key], one of the two unit names, and a city that is not the
    exit command. *)
Definition well_formed_request (key : string) (ev : event) : Prop :=
  match ev with
  | HttpGet url params =>
      url = BASE_URL /\
      exists city units,
        params = [("q", city); ("appid", key); ("units", units)] /\
        (units = "metric" \/ units = "imperial") /\
        lower city <> "exit"
  | _ => True
  end.

(** An exception that is not of the [requests] hierarchy. *)
Definition not_from_requests (e : exn) : Prop :=
  match e with
  | RequestsError _ _ => False
  | _ => True
  end.


(** The events of a turn of the loop up to its request: the two prompts
    and the GET for [city] in [units]. *)
Definition turn_events (client : WeatherClient) (city units : string) : list event :=
  [Prompt city_prompt; Prompt units_prompt;
   HttpGet BASE_URL [("q", city); ("appid", api_key client); ("units", units)]].


(** The remote end of a world answers every request, one way or the
    other: no call of [requests.get] hangs. *)
Definition answers (w : world) : Prop :=
  forall tr url params, remote w tr url params <> Diverged.

(** A computation settles when it leaves the remote end as it is and,
    where the remote end answers, comes to an end. *)
Definition settles {A} (m : M A) : Prop :=
  forall w, remote (snd (m w)) = remote w /\ (answers w -> fst (m w) <> Diverged).

(** ** Sample worlds and documents *)

(** A world with the given input lines and remote end, an empty trace
    and an empty environment. *)
Definition world_of (lines : list string)
    (net : list event -> string -> list (string * string) ->
           result response) : world :=
  {| stdin := lines; trace := []; environ := ∅; dotenv := ∅; remote := net |}.

(** Remote ends: one that refuses the connection, one that lets the
    read time out, one that answers 404, one that answers 200 with a
    given body. *)
Definition refusing : list event -> string -> list (string * string) ->
    result response :=
  fun _ _ _ => Raise (RequestsError ConnectionError "Connection refused").

Definition stalling : list event -> string -> list (string * string) ->
    result response :=
  fun _ _ _ => Raise (RequestsError ReadTimeout "Read timed out.").

Definition not_found : list event -> string -> list (string * string) ->
    result response :=
  fun _ _ _ => Ok {| status_code := 404;
                     http_error := "404 Client Error: Not Found";
                     json_body := inr (JObj [("cod", JStr "404");
                                             ("message", JStr "city not found")]) |}.

Definition answering (doc : json) : list event -> string ->
    list (string * string) -> result response :=
  fun _ _ _ => Ok {| status_code := 200; http_error := ""; json_body := inr doc |}.

(** A client and its key. *)
Definition client0 : WeatherClient := {| api_key := "k" |}.

(** A full answer, as the API gives it for a city (integers only). *)
Definition paris : json :=
  JObj [("name", JStr "Paris");
        ("sys", JObj [("country", JStr "FR");
                      ("sunrise", JInt 1700000000); ("sunset", JInt 1700040000)]);
        ("main", JObj [("temp", JInt 21); ("humidity", JInt 40)]);
        ("wind", JObj [("speed", JInt 3)]);
        ("cod", JInt 200)].

(** A sunrise at the epoch itself, and one beyond the years [datetime]
    can hold. *)
Definition sunrise_at_epoch : json :=
  JObj [("name", JStr "Paris"); ("sys", JObj [("sunrise", JInt 0)])].

Definition sunrise_too_far : json :=
  JObj [("name", JStr "Paris"); ("sys", JObj [("sunrise", JInt 1000000000000000)])].

(** A document whose sys member is null. *)
Definition null_sys : json :=
  JObj [("name", JStr "Paris"); ("sys", JNull)].

(** A world whose environment holds the API key. *)
Definition session (lines : list string)
    (net : list event -> string -> list (string * string) ->
           result response) : world :=
  {| stdin := lines; trace := []; environ := {["API_KEY" := "k"]}; dotenv := ∅;
     remote := net |}.


(** More remote ends: one on which the call is interrupted by an
    exception from outside [requests], one whose connection attempt
    times out, one that answers 200 with a body that is not JSON. *)
Definition interrupting : list event -> string -> list (string * string) ->
    result response :=
  fun _ _ _ => Raise (OtherError "KeyboardInterrupt").

Definition connect_timing_out : list event -> string -> list (string * string) ->
    result response :=
  fun _ _ _ => Raise (RequestsError ConnectTimeout "Connection timed out.").

(** Remote ends that answer 200 with a body [json()] cannot decode: one
    that is not JSON, and one nested deeper than the decoder can
    recurse. *)
Definition garbling : list event -> string -> list (string * string) ->
    result response :=
  fun _ _ _ => Ok {| status_code := 200; http_error := "";
                     json_body := inl (RequestsError JSONDecodeError
                                         "Expecting value: line 1 column 1 (char 0)") |}.

Definition too_deep : list event -> string -> list (string * string) ->
    result response :=
  fun _ _ _ => Ok {| status_code := 200; http_error := "";
                     json_body := inl (OtherError "RecursionError") |}.

(** Documents with a sunrise in the first day of year 1, and with one
    beyond what the C library breaks down. *)
Definition sunrise_year_one : json :=
  JObj [("sys", JObj [("sunrise", JInt (-62135596800))])].

Definition sunrise_beyond_localtime : json :=
  JObj [("sys", JObj [("sunrise", JInt 100000000000000000)])].

(** Documents with a sunrise, or a sunset, that is a text. *)
Definition text_sunrise : json :=
  JObj [("sys", JObj [("sunrise", JStr "06:12"); ("sunset", JInt 1700040000)])].

Definition text_sunset : json :=
  JObj [("sys", JObj [("sunrise", JInt 1700000000); ("sunset", JStr "17:05")])].

(** A world whose environment sets an empty API key while the .env file
    holds one, and a world whose two sources disagree. *)
Definition empty_key_world (lines : list string)
    (net : list event -> string -> list (string * string) ->
           result response) : world :=
  {| stdin := lines; trace := []; environ := {["API_KEY" := ""]};
     dotenv := {["API_KEY" := "k"]}; remote := net |}.

Definition two_keys_world (lines : list string)
    (net : list event -> string -> list (string * string) ->
           result response) : world :=
  {| stdin := lines; trace := []; environ := {["API_KEY" := "from-env"]};
     dotenv := {["API_KEY" := "from-file"]}; remote := net |}.

Definition dotenv_world (lines : list string)
    (net : list event -> string -> list (string * string) ->
           result response) : world :=
  {| stdin := lines; trace := []; environ := ∅;
     dotenv := {["API_KEY" := "from-file"]}; remote := net |}.


(** A document whose fields are all present and null. *)
Definition all_null : json :=
  JObj [("name", JNull);
        ("sys", JObj [("country", JNull)]);
        ("main", JObj [("temp", JNull); ("humidity", JNull)]);
        ("wind", JObj [("speed", JNull)])].

(** ** Properties *)

Lemma events_of_app {A} (m : M A) (w : world) (new : list event) :
  trace (snd (m w)) = trace w ++ new -> events_of m w = new.
Proof.
  intros H. unfold events_of. rewrite H. apply drop_app_length.
Qed.

(** *** get_units *)

Lemma get_units_loop_eof fuel w :
  stdin w = [] ->
  get_units_loop (S fuel) w = (Raise EOFError, emit (Prompt units_prompt) w).
Proof.
  intros H. simpl. unfold bind, input. simpl. rewrite H. reflexivity.
Qed.

Lemma get_units_loop_step fuel w line rest :
  stdin w = line :: rest ->
  get_units_loop (S fuel) w =
    let w1 := set_stdin rest (emit (Prompt units_prompt) w) in
    if String.eqb (lower (strip line)) "c" then (Ok "metric", w1)
    else if String.eqb (lower (strip line)) "f" then (Ok "imperial", w1)
    else get_units_loop fuel (emit (Print "Invalid option. Please enter C or F.") w1).
Proof.
  intros H. simpl. unfold bind at 1. unfold input. simpl. rewrite H.
  destruct (String.eqb (lower (strip line)) "c"); [reflexivity|].
  destruct (String.eqb (lower (strip line)) "f"); reflexivity.
Qed.

(** Fuel beyond the number of lines left changes nothing. *)
Lemma get_units_loop_fuel fuel fuel' w :
  (length (stdin w) < fuel)%nat -> (length (stdin w) < fuel')%nat ->
  get_units_loop fuel w = get_units_loop fuel' w.
Proof.
  revert fuel' w. induction fuel as [|fuel IH]; intros fuel' w H H'; [lia|].
  destruct fuel' as [|fuel']; [lia|].
  destruct (stdin w) as [|line rest] eqn:E.
  - rewrite !get_units_loop_eof by assumption. reflexivity.
  - rewrite (get_units_loop_step fuel w line rest E).
    rewrite (get_units_loop_step fuel' w line rest E). cbv zeta.
    destruct (String.eqb (lower (strip line)) "c"); [reflexivity|].
    destruct (String.eqb (lower (strip line)) "f"); [reflexivity|].
    simpl in H, H'. apply IH; simpl; lia.
Qed.

Lemma get_units_unfold fuel w :
  (length (stdin w) < fuel)%nat -> get_units w = get_units_loop fuel w.
Proof.
  intros H. unfold get_units. apply get_units_loop_fuel; [lia | exact H].
Qed.

(** With enough fuel the loop of [get_units] ends: it returns one of the
    two unit names or raises [EOFError]. *)
Lemma get_units_loop_ends fuel w :
  (length (stdin w) < fuel)%nat ->
  fst (get_units_loop fuel w) = Ok "metric" \/
  fst (get_units_loop fuel w) = Ok "imperial" \/
  fst (get_units_loop fuel w) = Raise EOFError.
Proof.
  revert w. induction fuel as [|fuel IH]; intros w H; [lia|].
  destruct (stdin w) as [|line rest] eqn:E.
  - rewrite get_units_loop_eof by assumption. auto.
  - rewrite (get_units_loop_step fuel w line rest E). cbv zeta.
    destruct (String.eqb (lower (strip line)) "c"); [auto|].
    destruct (String.eqb (lower (strip line)) "f"); [auto|].
    simpl in H. apply IH. simpl. lia.
Qed.

(** C7. On a line that trims and lower-cases to "c" [get_units] returns
    "metric" (Metric), on one that gives "f" it returns "imperial"
    (Imperial); on any other line it prints the error and asks again,
    going on exactly as [get_units] would from there; so it never
    returns anything but one of the two unit values, and its loop always
    ends. *)
Theorem get_units_spec (w : world) :
  (forall line rest, stdin w = line :: rest ->
     let w1 := set_stdin rest (emit (Prompt units_prompt) w) in
     (lower (strip line) = "c" -> get_units w = (Ok "metric", w1)) /\
     (lower (strip line) = "f" -> get_units w = (Ok "imperial", w1)) /\
     (lower (strip line) <> "c" -> lower (strip line) <> "f" ->
      get_units w =
        get_units (emit (Print "Invalid option. Please enter C or F.") w1))) /\
  (forall u, fst (get_units w) = Ok u -> u = "metric" \/ u = "imperial") /\
  fst (get_units w) <> Diverged.
Proof.
  split; [|split].
  - intros line rest E w1.
    rewrite (get_units_unfold (S (length (stdin w))) w) by lia.
    rewrite (get_units_loop_step _ w line rest E). cbv zeta. fold w1.
    split; [|split].
    + intros ->. reflexivity.
    + intros ->. reflexivity.
    + intros Hc Hf.
      apply String.eqb_neq in Hc, Hf. rewrite Hc, Hf.
      symmetry. apply get_units_unfold. rewrite E. simpl. lia.
  - intros u Hu. unfold get_units in Hu.
    destruct (get_units_loop_ends (S (length (stdin w))) w) as [H|[H|H]];
      [lia | | |]; rewrite H in Hu; inversion Hu; auto.
  - unfold get_units.
    destruct (get_units_loop_ends (S (length (stdin w))) w) as [H|[H|H]];
      [lia | | |]; rewrite H; discriminate.
Qed.

(** *** The loop of main *)

(** C8. A line at the city prompt that, trimmed, case-insensitively
    equals "exit" ends the loop of [main]: it returns normally after
    printing the farewell, reads nothing more and sends no request. *)
Theorem exit_ends_loop (client : WeatherClient) (fuel : nat) (w : world)
    (line : string) (rest : list string) :
  stdin w = line :: rest ->
  lower (strip line) = "exit" ->
  main_loop (S fuel) client w =
    (Ok tt, emit (Print "Goodbye!") (set_stdin rest (emit (Prompt city_prompt) w))) /\
  events_of (main_loop (S fuel) client) w = [Prompt city_prompt; Print "Goodbye!"] /\
  requests (events_of (main_loop (S fuel) client) w) = [].
Proof.
  intros E Hexit.
  assert (Hrun : main_loop (S fuel) client w =
    (Ok tt, emit (Print "Goodbye!") (set_stdin rest (emit (Prompt city_prompt) w)))).
  { simpl. unfold bind at 1. unfold main_body. unfold bind at 1.
    unfold input. simpl. rewrite E, Hexit. reflexivity. }
  assert (Hev : events_of (main_loop (S fuel) client) w =
                [Prompt city_prompt; Print "Goodbye!"]).
  { apply events_of_app. rewrite Hrun. simpl. rewrite <- app_assoc. reflexivity. }
  split; [exact Hrun|]. split; [exact Hev|]. rewrite Hev. reflexivity.
Qed.

Lemma lower_char_space (c : ascii) :
  Text.is_space (Text.lower_char c) = Text.is_space c.
Proof. destruct c as [[] [] [] [] [] [] [] []]; reflexivity. Qed.

(** A line of ASCII text that lower-cases to "exit" needs no trimming:
    it passes the test of the loop as it is. *)
Lemma exit_needs_no_trim (line : string) :
  Text.is_ascii line = true -> lower line = "exit" -> lower (strip line) = "exit".
Proof.
  intros Ha H. assert (Hs : strip line = line); [|rewrite Hs; exact H].
  unfold lower in H. rewrite Ha in H. unfold strip. rewrite Ha.
  destruct line as [|c1 [|c2 [|c3 [|c4 [|c5 r]]]]]; simpl in H; try discriminate.
  inversion H as [[H1 H2 H3 H4]].
  assert (S1 : Text.is_space c1 = false)
    by (rewrite <- lower_char_space, H1; reflexivity).
  assert (S4 : Text.is_space c4 = false)
    by (rewrite <- lower_char_space, H4; reflexivity).
  unfold Text.strip_ascii. simpl. rewrite S1. simpl. rewrite S4.
  reflexivity.
Qed.

(** A turn of the loop on a line that is not the exit command: the
    units are asked, the weather fetched, and the data dispatched. *)
Lemma main_body_dispatch (client : WeatherClient) (w : world)
    (line : string) (rest : list string) :
  stdin w = line :: rest ->
  lower (strip line) <> "exit" ->
  main_body client w =
    (units <- get_units;;
     data <- fetch_weather client (strip line) units;;
     main_dispatch data units)
      (set_stdin rest (emit (Prompt city_prompt) w)).
Proof.
  intros E Hne. unfold main_body. unfold bind at 1. unfold input. simpl.
  rewrite E. apply String.eqb_neq in Hne. rewrite Hne. reflexivity.
Qed.

Lemma keeps_stdin_lift {A} (r : result A) : keeps_stdin (lift r).
Proof. intros w. reflexivity. Qed.

Lemma keeps_stdin_ret {A} (a : A) : keeps_stdin (ret a).
Proof. intros w. reflexivity. Qed.

Lemma keeps_stdin_print (s : string) : keeps_stdin (print s).
Proof. intros w. reflexivity. Qed.

Lemma keeps_stdin_bind {A B} (m : M A) (k : A -> M B) :
  keeps_stdin m -> (forall a, keeps_stdin (k a)) -> keeps_stdin (bind m k).
Proof.
  intros Hm Hk w. unfold bind. specialize (Hm w).
  destruct (m w) as [[a|e|] w']; simpl in *; [|assumption|assumption].
  rewrite (Hk a w'). exact Hm.
Qed.

Lemma keeps_stdin_try_except {A} (m : M A) (handler : exn -> option (M A)) :
  keeps_stdin m -> (forall e h, handler e = Some h -> keeps_stdin h) ->
  keeps_stdin (try_except m handler).
Proof.
  intros Hm Hh w. unfold try_except. specialize (Hm w).
  destruct (m w) as [[a|e|] w']; simpl in *; [assumption| |assumption].
  destruct (handler e) as [h|] eqn:E; [|assumption].
  rewrite (Hh e h E w'). exact Hm.
Qed.

Create HintDb frame.
#[local] Hint Resolve keeps_stdin_lift keeps_stdin_ret keeps_stdin_print : frame.

Ltac frame :=
  repeat first
    [ apply keeps_stdin_bind; [|intros ?]
    | match goal with |- keeps_stdin (if ?b then _ else _) => destruct b end
    | solve [auto with frame] ].

Lemma keeps_stdin_show_weather (data : json) (units : string) :
  keeps_stdin (show_weather data units).
Proof. unfold show_weather. frame. Qed.

Lemma keeps_stdin_fetch_weather (client : WeatherClient) (city units : string) :
  keeps_stdin (fetch_weather client city units).
Proof.
  unfold fetch_weather. apply keeps_stdin_bind.
  - apply keeps_stdin_try_except.
    + apply keeps_stdin_bind; [intros w; reflexivity|]. intros r.
      apply keeps_stdin_bind.
      { unfold raise_for_status, raise. destruct (_ && _); auto with frame. }
      intros _. apply keeps_stdin_bind; [|auto with frame].
      unfold response_json, raise. destruct (json_body r); auto with frame.
    + intros e h. unfold fetch_handler.
      destruct e as [| | | | | |c err|]; try discriminate.
      destruct c; simpl; intros H; inversion H; subst; frame.
  - intros [doc|]; auto with frame.
Qed.

Lemma keeps_stdin_main_dispatch (data : json) (units : string) :
  keeps_stdin (main_dispatch data units).
Proof.
  pose proof (keeps_stdin_show_weather data units).
  unfold main_dispatch. destruct data; frame; assumption.
Qed.

Lemma get_units_loop_stdin (fuel : nat) (w : world) :
  (length (stdin (snd (get_units_loop fuel w))) <= length (stdin w))%nat.
Proof.
  revert w. induction fuel as [|fuel IH]; intros w; [simpl; lia|].
  destruct (stdin w) as [|line rest] eqn:E.
  - rewrite get_units_loop_eof by assumption. simpl. rewrite E. simpl. lia.
  - rewrite (get_units_loop_step fuel w line rest E). cbv zeta.
    destruct (String.eqb (lower (strip line)) "c"); [simpl; lia|].
    destruct (String.eqb (lower (strip line)) "f"); [simpl; lia|].
    etransitivity; [apply IH|]. simpl. lia.
Qed.

(** A turn of the loop of [main] that ends at all has read a line. *)
Lemma main_body_reads (client : WeatherClient) (w : world) (c : control) :
  fst (main_body client w) = Ok c ->
  (length (stdin (snd (main_body client w))) < length (stdin w))%nat.
Proof.
  destruct (stdin w) as [|line rest] eqn:E.
  - unfold main_body. unfold bind at 1. unfold input. simpl. rewrite E. discriminate.
  - intros _. destruct (String.eqb (lower (strip line)) "exit") eqn:Hexit.
    + unfold main_body. unfold bind at 1. unfold input. simpl. rewrite E, Hexit.
      simpl. lia.
    + apply String.eqb_neq in Hexit.
      rewrite (main_body_dispatch client w line rest E Hexit).
      set (w1 := set_stdin rest (emit (Prompt city_prompt) w)).
      assert (Hk : forall units, keeps_stdin
                (data <- fetch_weather client (strip line) units;;
                 main_dispatch data units)).
      { intros units. apply keeps_stdin_bind;
          [apply keeps_stdin_fetch_weather | intros d; apply keeps_stdin_main_dispatch]. }
      unfold bind at 1. pose proof (get_units_loop_stdin (S (length (stdin w1))) w1) as Hg.
      fold (get_units w1) in Hg.
      destruct (get_units w1) as [[units| |] w2]; simpl in Hg |- *;
        [rewrite (Hk units w2)| |]; subst w1; simpl in Hg; lia.
Qed.

(** Fuel beyond the number of lines left changes nothing to the loop of
    [main] either. *)
Lemma main_loop_fuel (client : WeatherClient) (fuel fuel' : nat) (w : world) :
  (length (stdin w) < fuel)%nat -> (length (stdin w) < fuel')%nat ->
  main_loop fuel client w = main_loop fuel' client w.
Proof.
  revert fuel' w. induction fuel as [|fuel IH]; intros fuel' w H H'; [lia|].
  destruct fuel' as [|fuel']; [lia|]. simpl. unfold bind.
  pose proof (main_body_reads client w) as Hr.
  destruct (main_body client w) as [[[|]| |] w']; try reflexivity.
  specialize (Hr Continue eq_refl). simpl in Hr. apply IH; lia.
Qed.

(** *** Start of main *)

(** C9. With no API_KEY in the process environment nor in the .env file,
    [main] prints the error message and returns normally: nothing else
    is printed, no line is read and no request is sent. *)
Theorem main_without_api_key (w : world) :
  environ w !! "API_KEY" = None ->
  dotenv w !! "API_KEY" = None ->
  fst (main w) = Ok tt /\
  events_of main w = [Print no_api_key_message] /\
  stdin (snd (main w)) = stdin w.
Proof.
  intros He Hd.
  assert (Hrun : main w =
    (Ok tt, emit (Print no_api_key_message) (set_environ (environ w ∪ dotenv w) w))).
  { unfold main, bind, load_dotenv, getenv. simpl.
    assert (Hk : (environ w ∪ dotenv w) !! "API_KEY" = None)
      by (apply lookup_union_None; split; assumption).
    rewrite Hk. reflexivity. }
  rewrite Hrun. simpl. split; [reflexivity|]. split; [|reflexivity].
  apply events_of_app. rewrite Hrun. reflexivity.
Qed.

(** *** The cod of a response *)

Lemma str_int_inj (a b : Z) : str_int a = str_int b -> a = b.
Proof.
  unfold str_int. intros H.
  assert (Hnil : forall z, Z.to_int z <> Decimal.Pos Decimal.Nil /\
                           Z.to_int z <> Decimal.Neg Decimal.Nil).
  { intros [|q|q]; simpl; split; try discriminate;
      intros Hq; inversion Hq as [Hq'];
      exact (DecimalPos.Unsigned.to_uint_nonnil q Hq'). }
  apply (f_equal NilZero.int_of_string) in H.
  rewrite !NilZero.isi in H by apply Hnil.
  inversion H as [H']. apply (f_equal Z.of_int) in H'.
  rewrite !DecimalZ.of_to in H'. exact H'.
Qed.

(** [str(x)] is "200" for the integer 200 and the string "200" only,
    given that the [repr] of a float is never "200" (it always has a
    point, an exponent, or is inf or nan). *)
Lemma py_str_200 (j : json) :
  (forall f, float_repr rt f <> "200") ->
  py_str j = "200" <-> j = JInt 200 \/ j = JStr "200".
Proof.
  intros Hfloat. split.
  - destruct j as [|[|]|z|f|s|l|items]; simpl; intros H; try discriminate.
    + left. f_equal. apply str_int_inj. exact H.
    + exfalso. exact (Hfloat f H).
    + right. f_equal. exact H.
  - intros [->| ->]; reflexivity.
Qed.


(** *** fetch_weather *)

Lemma failure_message_inj k k' err err' :
  failure_message k err = failure_message k' err' -> k = k'.
Proof.
  destruct k, k'; simpl; intros H; try reflexivity; discriminate H.
Qed.

(** C1, as the code has it. [fetch_weather] returns the parsed document
    when the request succeeds; in each of the four failure classes it
    returns [None], and the class shows only in the line it prints,
    which differs from class to class. *)
Theorem fetch_weather_result (self : WeatherClient) (city units : string) (w : world) :
  let answer := remote w (trace w) BASE_URL (query self city units) in
  let w1 := emit (HttpGet BASE_URL (query self city units)) w in
  (forall doc, success_of answer = Some doc ->
     fetch_weather self city units w = (Ok doc, w1)) /\
  (forall k err, failure_of answer = Some (k, err) ->
     fetch_weather self city units w =
       (Ok JNull, emit (Print (failure_message k err)) w1)) /\
  (forall k k' err err',
     failure_message k err = failure_message k' err' -> k = k').
Proof.
  intros answer w1. subst answer w1. unfold query.
  unfold fetch_weather, try_except, requests_get, raise_for_status, response_json.
  unfold bind, raise, lift, ret.
  split; [|split].
  - intros doc H. unfold success_of in H.
    destruct (remote w (trace w) BASE_URL _) as [r|e|]; try discriminate.
    destruct ((400 <=? status_code r) && (status_code r <? 600)); try discriminate.
    destruct (json_body r) as [err|d]; try discriminate.
    inversion H; subst. reflexivity.
  - intros k err H. unfold failure_of in H.
    destruct (remote w (trace w) BASE_URL _) as [r|e|]; try discriminate.
    + destruct ((400 <=? status_code r) && (status_code r <? 600)).
      * inversion H; subst. reflexivity.
      * destruct (json_body r) as [[| | | | | |c err'|]|d]; try discriminate.
        inversion H; subst. destruct c; reflexivity.
    + destruct e as [| | | | | |c err'|]; try discriminate.
      inversion H; subst. destruct c; reflexivity.
  - intros k k' err err'. apply failure_message_inj.
Qed.

(** *** show_weather *)

(** *** fromtimestamp, step by step *)

Lemma object_to_time_t_ok (v : json) (t : Z) :
  object_to_time_t v = Ok t <->
  timestamp_second v = Some t /\ time_t_min <= t <= time_t_max.
Proof.
  assert (Hfits : forall z,
            (if (time_t_min <=? z) && (z <=? time_t_max)
             then Ok z else Raise OverflowError) = Ok t <->
            Some z = Some t /\ time_t_min <= t <= time_t_max).
  { intros z. destruct ((time_t_min <=? z) && (z <=? time_t_max)) eqn:E.
    - apply andb_prop in E. destruct E as [E1 E2]. apply Z.leb_le in E1, E2.
      split; [intros H; inversion H; subst; auto | intros [H _]; inversion H; auto].
    - split; [discriminate|]. intros [H [H1 H2]]. inversion H; subst.
      apply Z.leb_le in H1, H2. rewrite H1, H2 in E. discriminate E. }
  unfold object_to_time_t, timestamp_second.
  destruct v as [|b|z|f|s|l|items];
    try (split; [discriminate | intros [H _]; discriminate H]).
  - apply Hfits.
  - apply Hfits.
  - destruct (float_isnan rt f);
      [split; [discriminate | intros [H _]; discriminate H]|].
    destruct (float_seconds rt f) as [z|];
      [apply Hfits | split; [discriminate | intros [H _]; discriminate H]].
Qed.

Lemma object_to_time_t_raise (v : json) (e : exn) :
  object_to_time_t v = Raise e ->
  (is_number v = false /\ e = TypeError) \/
  (is_number v = true /\ (e = ValueError \/ e = OverflowError)).
Proof.
  unfold object_to_time_t.
  destruct v as [|b|z|f|s|l|items]; simpl; intros H;
    repeat match type of H with
           | context [if ?c then _ else _] => destruct c
           | context [match float_seconds rt ?f with _ => _ end] =>
               destruct (float_seconds rt f)
           end;
    inversion H; auto.
Qed.

Lemma object_to_time_t_not_diverged (v : json) : object_to_time_t v <> Diverged.
Proof.
  unfold object_to_time_t.
  destruct v as [|b|z|f|s|l|items]; simpl;
    repeat match goal with
           | |- context [if ?c then _ else _] => destruct c
           | |- context [match float_seconds rt ?f with _ => _ end] =>
               destruct (float_seconds rt f)
           end;
    discriminate.
Qed.

Lemma local_seconds_ok (u s : Z) :
  local_seconds u = Ok s <-> in_years u = true /\ s = u + utcoffset rt u.
Proof.
  unfold local_seconds, in_years. cbv zeta.
  unfold localtime_min, localtime_max, datetime_min, datetime_max.
  destruct (_ <? -67768040609740800) eqn:E1;
    [apply Z.ltb_lt in E1 | apply Z.ltb_ge in E1];
  (destruct (67768036191676799 <? _) eqn:E2;
    [apply Z.ltb_lt in E2 | apply Z.ltb_ge in E2]);
  (destruct (_ <? -62135596800) eqn:E3;
    [apply Z.ltb_lt in E3 | apply Z.ltb_ge in E3]);
  (destruct (253402300799 <? _) eqn:E4;
    [apply Z.ltb_lt in E4 | apply Z.ltb_ge in E4]);
  cbn [orb]; rewrite andb_true_iff, !Z.leb_le;
  (split; [intros H; inversion H; subst; try lia; auto
          |intros [[H1 H2] H]; subst; try lia; reflexivity]).
Qed.

Lemma local_seconds_raise (u : Z) (e : exn) :
  local_seconds u = Raise e -> e = ValueError \/ e = OSError.
Proof.
  unfold local_seconds. cbv zeta.
  destruct (_ || _); [intros H; inversion H; auto|].
  destruct (_ || _); intros H; inversion H; auto.
Qed.

Lemma local_seconds_not_diverged (u : Z) : local_seconds u <> Diverged.
Proof.
  unfold local_seconds. cbv zeta.
  destruct (_ || _); [discriminate|]. destruct (_ || _); discriminate.
Qed.

(** An instant whose local time is in years 1..9999 fits [time_t]. *)
Lemma in_years_time_t (t : Z) :
  in_years t = true -> time_t_min <= t <= time_t_max.
Proof.
  unfold in_years. rewrite andb_true_iff, !Z.leb_le.
  pose proof (utcoffset_bounded rt t).
  unfold datetime_min, datetime_max, time_t_min, time_t_max. lia.
Qed.

(** [fromtimestamp] gives a [datetime] exactly for the numbers whose
    second is [in_datetime_range], and it is the local time then. *)
Lemma fromtimestamp_ok (v : json) (d : datetime) :
  fromtimestamp v = Ok d <->
  exists t, timestamp_second v = Some t /\ in_datetime_range t = true /\
            d = t + utcoffset rt t.
Proof.
  unfold fromtimestamp, in_datetime_range, max_fold_seconds. cbv zeta. split.
  - destruct (object_to_time_t v) as [t| |] eqn:Ev; try discriminate.
    apply object_to_time_t_ok in Ev. destruct Ev as [Ev _].
    destruct (local_seconds t) as [s1| |] eqn:E1; try discriminate.
    apply local_seconds_ok in E1. destruct E1 as [Y1 ->].
    destruct (local_seconds (t - 86400)) as [s2| |] eqn:E2; try discriminate.
    apply local_seconds_ok in E2. destruct E2 as [Y2 ->].
    destruct (_ <? 0) eqn:L; [apply Z.ltb_lt in L | apply Z.ltb_ge in L].
    + destruct (local_seconds _) as [s3| |] eqn:E3; try discriminate.
      apply local_seconds_ok in E3. destruct E3 as [Y3 _].
      intros H. inversion H; subst. exists t. rewrite Y1, Y2. cbn [andb].
      split; [exact Ev|]. split; [|reflexivity].
      apply orb_true_iff. right. rewrite <- Y3. f_equal. lia.
    + intros H. inversion H; subst. exists t. rewrite Y1, Y2. cbn [andb].
      split; [exact Ev|]. split; [|reflexivity].
      apply orb_true_iff. left. apply Z.leb_le. lia.
  - intros [t [Ev [Hr ->]]].
    apply andb_prop in Hr. destruct Hr as [Hr Y3].
    apply andb_prop in Hr. destruct Hr as [Y1 Y2].
    rewrite (proj2 (object_to_time_t_ok v t) (conj Ev (in_years_time_t t Y1))).
    rewrite (proj2 (local_seconds_ok t _) (conj Y1 eq_refl)).
    rewrite (proj2 (local_seconds_ok (t - 86400) _) (conj Y2 eq_refl)).
    destruct (_ <? 0) eqn:L; [apply Z.ltb_lt in L | reflexivity].
    apply orb_true_iff in Y3. destruct Y3 as [Y3|Y3]; [apply Z.leb_le in Y3; lia|].
    replace (t + (t + utcoffset rt t - (t - 86400 + utcoffset rt (t - 86400)) - 86400))
      with (t - (utcoffset rt (t - 86400) - utcoffset rt t)) by lia.
    rewrite (proj2 (local_seconds_ok _ _) (conj Y3 eq_refl)). reflexivity.
Qed.

(** What [fromtimestamp] raises: [TypeError] for anything but a number,
    and for a number one of [ValueError], [OverflowError], [OSError]. *)
Lemma fromtimestamp_raise (v : json) (e : exn) :
  fromtimestamp v = Raise e ->
  (is_number v = false /\ e = TypeError) \/
  (is_number v = true /\ (e = ValueError \/ e = OverflowError \/ e = OSError)).
Proof.
  assert (Hn : forall t, object_to_time_t v = Ok t -> is_number v = true).
  { intros t H. apply object_to_time_t_ok in H. destruct H as [H _].
    destruct v; try discriminate H; reflexivity. }
  assert (Hl : forall u e', local_seconds u = Raise e' ->
                 e' = ValueError \/ e' = OverflowError \/ e' = OSError).
  { intros u e' H. destruct (local_seconds_raise u e' H); auto. }
  unfold fromtimestamp. cbv zeta.
  destruct (object_to_time_t v) as [t|e0|] eqn:Ev; [| |discriminate].
  - specialize (Hn t eq_refl).
    destruct (local_seconds t) as [s1|e1|] eqn:E1; [| |discriminate].
    + destruct (local_seconds (t - _)) as [s2|e2|] eqn:E2; [| |discriminate].
      * destruct (_ <? 0); [|discriminate].
        destruct (local_seconds (t + _)) as [s3|e3|] eqn:E3; try discriminate.
        intros H. inversion H; subst. right. split; [exact Hn | exact (Hl _ _ E3)].
      * intros H. inversion H; subst. right. split; [exact Hn | exact (Hl _ _ E2)].
    + intros H. inversion H; subst. right. split; [exact Hn | exact (Hl _ _ E1)].
  - intros H. inversion H; subst.
    destruct (object_to_time_t_raise v e Ev) as [[H1 H2]|[H1 [H2|H2]]]; auto.
Qed.

Lemma fromtimestamp_not_diverged (v : json) : fromtimestamp v <> Diverged.
Proof.
  unfold fromtimestamp. cbv zeta.
  pose proof (object_to_time_t_not_diverged v) as H0.
  destruct (object_to_time_t v) as [t| |]; [|discriminate|congruence].
  pose proof (local_seconds_not_diverged t) as H1.
  destruct (local_seconds t) as [s1| |]; [|discriminate|congruence].
  pose proof (local_seconds_not_diverged (t - max_fold_seconds)) as H2.
  destruct (local_seconds (t - _)) as [s2| |]; [|discriminate|congruence].
  destruct (_ <? 0); [|discriminate].
  match goal with
  | |- context [local_seconds ?u] =>
      pose proof (local_seconds_not_diverged u) as H3;
      destruct (local_seconds u); [discriminate|discriminate|congruence]
  end.
Qed.

Lemma format_unix_time_not_diverged v : format_unix_time v <> Diverged.
Proof.
  unfold format_unix_time. pose proof (fromtimestamp_not_diverged v) as H.
  destruct (fromtimestamp v); [discriminate|discriminate|congruence].
Qed.

Ltac sun_cases v :=
  destruct (truthy v); [destruct (format_unix_time v)|].

Lemma show_weather_rendering (data : json) (units : string) (w : world) :
  fst (show_weather data units w) = snd (rendering data units) /\
  trace (snd (show_weather data units w)) = trace w ++ fst (rendering data units).
Proof.
  unfold rendering, well_shaped, show_weather.
  destruct data as [|b|z|f|s|l|items]; try (split; reflexivity).
  unfold location_line, temperature_line, humidity_line, wind_line, unit_label.
  unfold field, member, sun_line, or_default. cbn [is_dict andb].
  unfold bind, lift, py_get, print, ret.
  destruct (lookup_key "sys" items) as [[|?|?|?|?|?|sys]|];
    try (split; reflexivity);
  (destruct (lookup_key "main" items) as [[|?|?|?|?|?|main]|];
    try (split; reflexivity);
  (destruct (lookup_key "wind" items) as [[|?|?|?|?|?|wind]|];
    try (split; reflexivity))).
  all: cbn [dict_or_absent is_dict andb lookup_key empty_dict truthy].
  all: repeat match goal with
       | |- context [truthy ?v] => sun_cases v
       end.
  all: split; cbn [fst snd trace emit]; rewrite <- ?app_assoc; reflexivity.
Qed.

Lemma show_weather_events (data : json) (units : string) (w : world) :
  events_of (show_weather data units) w = fst (rendering data units).
Proof. apply events_of_app. apply show_weather_rendering. Qed.

(** *** Twelve-hour time *)

Lemma strftime_clock_12h (d : datetime) : clock_12h d (strftime_I_M_p d).
Proof.
  unfold clock_12h, strftime_I_M_p, hour, minute.
  set (s := d mod 86400).
  assert (Hs : 0 <= s < 86400) by (apply Z.mod_pos_bound; lia).
  assert (Hm : d mod 3600 = s mod 3600).
  { subst s. Z.div_mod_to_equations. lia. }
  rewrite Hm.
  exists (if (s / 3600) mod 12 =? 0 then 12 else (s / 3600) mod 12),
         (s mod 3600 / 60), (negb (s / 3600 <? 12)).
  assert (Hh : 0 <= s / 3600 < 24) by (Z.div_mod_to_equations; lia).
  split; [|split; [|split]].
  - destruct ((s / 3600) mod 12 =? 0) eqn:E; [lia|].
    apply Z.eqb_neq in E. Z.div_mod_to_equations. lia.
  - Z.div_mod_to_equations. lia.
  - destruct (s / 3600 <? 12); reflexivity.
  - cbv zeta.
    destruct ((s / 3600) mod 12 =? 0) eqn:E;
      [apply Z.eqb_eq in E | apply Z.eqb_neq in E];
      destruct (s / 3600 <? 12) eqn:L;
      [apply Z.ltb_lt in L | apply Z.ltb_ge in L
      |apply Z.ltb_lt in L | apply Z.ltb_ge in L];
      cbn [negb]; Z.div_mod_to_equations; lia.
Qed.

Lemma format_unix_time_second (v : json) (t : Z) :
  timestamp_second v = Some t ->
  in_datetime_range t = true ->
  format_unix_time v = Ok (strftime_I_M_p (t + utcoffset rt t)).
Proof.
  intros Hv Hr. unfold format_unix_time.
  rewrite (proj2 (fromtimestamp_ok v (t + utcoffset rt t))); [reflexivity|].
  exists t. auto.
Qed.

Lemma is_timestamp_formats (v : json) :
  is_timestamp v = true -> exists text, format_unix_time v = Ok text.
Proof.
  unfold is_timestamp. destruct (timestamp_second v) as [t|] eqn:E; [|discriminate].
  intros Hr. rewrite (format_unix_time_second v t E Hr). eauto.
Qed.

Lemma sun_ok_line (label : string) (o : option json) :
  sun_ok o = true -> exists l, sun_line label o = Ok l.
Proof.
  unfold sun_ok, sun_line. cbv zeta.
  destruct (truthy _); simpl; [|eauto].
  intros H. destruct (is_timestamp_formats _ H) as [text ->]. eauto.
Qed.

(** C5. Where local time is UTC at the epoch, [format_unix_time(0)] is
    "12:00 AM". *)
Theorem format_unix_time_epoch :
  utcoffset rt 0 = 0 -> format_unix_time (JInt 0) = Ok "12:00 AM".
Proof.
  intros H.
  assert (Hr : in_datetime_range 0 = true).
  { unfold in_datetime_range, in_years. cbv zeta.
    pose proof (utcoffset_bounded rt (0 - 86400)) as B1.
    pose proof (utcoffset_bounded rt
                  (0 - (utcoffset rt (0 - 86400) - utcoffset rt 0))) as B2.
    unfold datetime_min, datetime_max.
    rewrite !andb_true_iff, orb_true_iff, andb_true_iff, !Z.leb_le. lia. }
  rewrite (format_unix_time_second (JInt 0) 0 eq_refl Hr), H. reflexivity.
Qed.

(** *** What show_weather prints *)

Lemma sun_line_cases (label : string) (o : option json) :
  sun_line label o = Ok [] \/
  (exists text, sun_line label o = Ok [Print (label +:+ text)]) \/
  (exists e, sun_line label o = Raise e).
Proof.
  unfold sun_line. cbv zeta.
  destruct (truthy _); [|auto].
  destruct (format_unix_time _) eqn:E; eauto.
  exfalso. exact (format_unix_time_not_diverged _ E).
Qed.

Lemma sun_line_timestamp (label : string) (v : json) (t : Z) :
  truthy v = true -> timestamp_second v = Some t -> in_datetime_range t = true ->
  sun_line label (Some v) =
    Ok [Print (label +:+ strftime_I_M_p (t + utcoffset rt t))].
Proof.
  intros Hv Ht Hr. unfold sun_line. cbv zeta. rewrite Hv.
  rewrite (format_unix_time_second v t Ht Hr). reflexivity.
Qed.

Ltac sun_line_split label o :=
  let H := fresh "H" in
  destruct (sun_line_cases label o) as [H|[[? H]|[? H]]]; rewrite H.



(** C4, as the code has it. For a well-shaped document whose sunrise and
    sunset are missing, false or timestamps [fromtimestamp] takes, and
    whose four lines are text that standard output can write,
    [show_weather] does not raise; it prints the header and then the
    four lines, in which a missing name reads "Unknown city", a missing
    country "N/A", and a missing temperature, humidity or wind speed
    "No data". *)
Theorem show_weather_defaults (data : json) (units : string) (w : world) :
  well_shaped data = true ->
  sun_ok (field data "sys" "sunrise") = true ->
  sun_ok (field data "sys" "sunset") = true ->
  encodable data units = true ->
  fst (show_weather data units w) = Ok tt /\
  (exists tail,
     printed (events_of (show_weather data units) w) =
       header
       :: ("Location: " +:+ or_default (member data "name") "Unknown city" +:+ ", "
           +:+ or_default (field data "sys" "country") "N/A")
       :: ("Temperature: " +:+ or_default (field data "main" "temp") "No data"
           +:+ unit_label units)
       :: ("Humidity: " +:+ or_default (field data "main" "humidity") "No data" +:+ "%")
       :: ("Wind Speed: " +:+ or_default (field data "wind" "speed") "No data" +:+ " m/s")
       :: tail) /\
  (forall fallback, or_default None fallback = fallback).
Proof.
  intros Hw H1 H2 _.
  destruct (sun_ok_line "Sunrise: " _ H1) as [l1 E1].
  destruct (sun_ok_line "Sunset:  " _ H2) as [l2 E2].
  destruct (show_weather_rendering data units w) as [Hres _].
  rewrite Hres, show_weather_events. unfold rendering. rewrite Hw, E1, E2.
  split; [reflexivity|]. split; [|reflexivity].
  exists (printed (l1 ++ l2 ++ [Print footer])). reflexivity.
Qed.

(** C2, as the code has it. In a well-shaped document whose four lines
    are text that standard output can write, a sunrise that is true in
    [if] (so neither null nor 0) and a number of seconds
    [fromtimestamp] takes (local time within years 1..9999 at that
    instant and a day before it) is printed as one line, "Sunrise: "
    and the 12-hour local time with AM/PM; so is such a sunset, in a
    line "Sunset:  ", when the sunrise has not made [show_weather]
    raise. In any document, a missing sunrise (sunset) leaves no line
    beginning "Sunrise: " ("Sunset:  "). *)
Theorem sun_lines (data : json) (units : string) (w : world) :
  (forall v t, well_shaped data = true -> encodable data units = true ->
     field data "sys" "sunrise" = Some v ->
     truthy v = true -> timestamp_second v = Some t -> in_datetime_range t = true ->
     exists text, clock_12h (t + utcoffset rt t) text /\
       lines_of "Sunrise: " (events_of (show_weather data units) w) =
         ["Sunrise: " +:+ text]) /\
  (forall v t, well_shaped data = true -> encodable data units = true ->
     sun_ok (field data "sys" "sunrise") = true ->
     field data "sys" "sunset" = Some v ->
     truthy v = true -> timestamp_second v = Some t -> in_datetime_range t = true ->
     exists text, clock_12h (t + utcoffset rt t) text /\
       lines_of "Sunset:  " (events_of (show_weather data units) w) =
         ["Sunset:  " +:+ text]) /\
  (field data "sys" "sunrise" = None ->
   lines_of "Sunrise: " (events_of (show_weather data units) w) = []) /\
  (field data "sys" "sunset" = None ->
   lines_of "Sunset:  " (events_of (show_weather data units) w) = []).
Proof.
  split; [|split; [|split]].
  - intros v t Hw _ Hf Hv Ht Hr.
    exists (strftime_I_M_p (t + utcoffset rt t)).
    split; [apply strftime_clock_12h|].
    rewrite show_weather_events. unfold rendering.
    rewrite Hw, Hf, (sun_line_timestamp _ v t Hv Ht Hr).
    sun_line_split "Sunset:  " (field data "sys" "sunset"); reflexivity.
  - intros v t Hw _ Hok Hf Hv Ht Hr.
    exists (strftime_I_M_p (t + utcoffset rt t)).
    split; [apply strftime_clock_12h|].
    destruct (sun_ok_line "Sunrise: " _ Hok) as [l1 E1].
    rewrite show_weather_events. unfold rendering.
    rewrite Hw, Hf, (sun_line_timestamp _ v t Hv Ht Hr).
    destruct (sun_line_cases "Sunrise: " (field data "sys" "sunrise"))
      as [H|[[? H]|[? H]]]; rewrite H in *; [reflexivity|reflexivity|discriminate].
  - intros Hf. rewrite show_weather_events. unfold rendering. rewrite Hf.
    destruct (well_shaped data); [|reflexivity].
    cbn [sun_line truthy].
    sun_line_split "Sunset:  " (field data "sys" "sunset"); reflexivity.
  - intros Hf. rewrite show_weather_events. unfold rendering. rewrite Hf.
    destruct (well_shaped data); [|reflexivity].
    cbn [sun_line truthy].
    sun_line_split "Sunrise: " (field data "sys" "sunrise"); reflexivity.
Qed.


(** ** Further properties *)

(** *** fetch_weather, case by case *)

(** What [fetch_weather] does on each answer of the remote end. *)
Lemma fetch_weather_cases (self : WeatherClient) (city units : string) (w : world) :
  let w1 := emit (HttpGet BASE_URL (query self city units)) w in
  fetch_weather self city units w =
    match remote w (trace w) BASE_URL (query self city units) with
    | Ok r =>
        if (400 <=? status_code r) && (status_code r <? 600)
        then (Ok JNull, emit (Print (failure_message HttpStatus (http_error r))) w1)
        else match json_body r with
             | inr doc => (Ok doc, w1)
             | inl (RequestsError c err) =>
                 (Ok JNull, emit (Print (failure_message (handler_class c) err)) w1)
             | inl e => (Raise e, w1)
             end
    | Raise (RequestsError c err) =>
        (Ok JNull, emit (Print (failure_message (handler_class c) err)) w1)
    | Raise e => (Raise e, w1)
    | Diverged => (Diverged, w1)
    end.
Proof.
  cbv zeta. unfold query.
  unfold fetch_weather, try_except, requests_get, raise_for_status, response_json.
  unfold bind, raise, lift, ret.
  destruct (remote w (trace w) BASE_URL _) as [r|e|]; [| |reflexivity].
  - destruct ((400 <=? status_code r) && (status_code r <? 600)); [reflexivity|].
    destruct (json_body r) as [[| | | | | |c err|]|doc]; try reflexivity.
    destruct c; reflexivity.
  - destruct e as [| | | | | |c err|]; try reflexivity. destruct c; reflexivity.
Qed.

(** What the [except] clauses make of an exception [e] the body of the
    [try] ends in: one of [requests] is reported and turned into
    [None], any other goes on to the caller. *)
Lemma fetch_weather_raised (self : WeatherClient) (city units : string) (w : world)
    (e : exn) :
  let w1 := emit (HttpGet BASE_URL (query self city units)) w in
  raised_in_try (remote w (trace w) BASE_URL (query self city units)) = Some e ->
  fetch_weather self city units w =
    match e with
    | RequestsError c err =>
        (Ok JNull, emit (Print (failure_message (handler_class c) err)) w1)
    | _ => (Raise e, w1)
    end.
Proof.
  cbv zeta. rewrite fetch_weather_cases. cbv zeta. unfold raised_in_try.
  destruct (remote w (trace w) BASE_URL _) as [r|e'|]; [| |discriminate].
  - destruct ((400 <=? status_code r) && (status_code r <? 600)).
    + intros H. inversion H; subst. reflexivity.
    + destruct (json_body r) as [e'|doc]; [|discriminate].
      intros H. inversion H; subst. destruct e; reflexivity.
  - intros H. inversion H; subst. destruct e; reflexivity.
Qed.

Lemma fetch_weather_not_raised (self : WeatherClient) (city units : string)
    (w : world) (e : exn) :
  raised_in_try (remote w (trace w) BASE_URL (query self city units)) = None ->
  fst (fetch_weather self city units w) <> Raise e.
Proof.
  rewrite fetch_weather_cases. cbv zeta. unfold raised_in_try.
  destruct (remote w (trace w) BASE_URL _) as [r|e'|]; [| |discriminate].
  - destruct ((400 <=? status_code r) && (status_code r <? 600)); [discriminate|].
    destruct (json_body r) as [e'|doc]; discriminate.
  - discriminate.
Qed.

(** X1. A call of [fetch_weather] makes a single attempt: whatever the
    remote end does, its events are one GET of the fixed URL with the
    parameters q, appid and units, followed by at most one printed
    failure line; and it reads nothing from standard input. *)
Theorem fetch_weather_single_attempt (self : WeatherClient) (city units : string)
    (w : world) :
  exists tail,
    events_of (fetch_weather self city units) w =
      HttpGet "https://api.openweathermap.org/data/2.5/weather"
        [("q", city); ("appid", api_key self); ("units", units)] :: tail /\
    (tail = [] \/ exists k err, tail = [Print (failure_message k err)]) /\
    stdin (snd (fetch_weather self city units w)) = stdin w.
Proof.
  pose proof (fetch_weather_cases self city units w) as H. cbv zeta in H.
  assert (Hshape : forall r x, fetch_weather self city units w = (r, x) ->
            forall tail, trace x = trace w ++ HttpGet BASE_URL (query self city units) :: tail ->
            stdin x = stdin w ->
            (tail = [] \/ exists k err, tail = [Print (failure_message k err)]) ->
            exists tail,
              events_of (fetch_weather self city units) w =
                HttpGet BASE_URL (query self city units) :: tail /\
              (tail = [] \/ exists k err, tail = [Print (failure_message k err)]) /\
              stdin (snd (fetch_weather self city units w)) = stdin w).
  { intros r x E tail Ht Hs Htail. exists tail. rewrite E. simpl.
    split; [|split; assumption].
    apply events_of_app. rewrite E. exact Ht. }
  destruct (remote w (trace w) BASE_URL (query self city units)) as [r|e|].
  - destruct ((400 <=? status_code r) && (status_code r <? 600)).
    + apply (Hshape _ _ H [Print (failure_message HttpStatus (http_error r))]);
        [simpl; rewrite <- app_assoc; reflexivity | reflexivity | eauto].
    + destruct (json_body r) as [[| | | | | |c err|]|doc];
        try (apply (Hshape _ _ H []); [reflexivity | reflexivity | auto]).
      apply (Hshape _ _ H [Print (failure_message (handler_class c) err)]);
        [simpl; rewrite <- app_assoc; reflexivity | reflexivity | eauto].
  - destruct e as [| | | | | |c err|];
      try (apply (Hshape _ _ H []); [reflexivity | reflexivity | auto]).
    apply (Hshape _ _ H [Print (failure_message (handler_class c) err)]);
      [simpl; rewrite <- app_assoc; reflexivity | reflexivity | eauto].
  - apply (Hshape _ _ H []); [reflexivity | reflexivity | auto].
Qed.

(** X2. [fetch_weather] lets no exception of [requests] escape, and
    catches nothing else: it raises [e] exactly when the body of its
    [try] ended in [e] (raised by [requests.get] or, on an answer whose
    status is no error, by [response.json()]) and [e] is from outside
    that hierarchy; it then passes [e] on without printing anything. *)
Theorem fetch_weather_raises (self : WeatherClient) (city units : string)
    (w : world) (e : exn) :
  (fst (fetch_weather self city units w) = Raise e <->
   raised_in_try (remote w (trace w) BASE_URL (query self city units)) = Some e /\
   forall c err, e <> RequestsError c err) /\
  (fst (fetch_weather self city units w) = Raise e ->
   printed (events_of (fetch_weather self city units) w) = []).
Proof.
  assert (Hto : fst (fetch_weather self city units w) = Raise e ->
            raised_in_try (remote w (trace w) BASE_URL (query self city units)) = Some e /\
            forall c err, e <> RequestsError c err).
  { intros Hr.
    destruct (raised_in_try (remote w (trace w) BASE_URL (query self city units)))
      as [e'|] eqn:Et.
    - rewrite (fetch_weather_raised self city units w e' Et) in Hr.
      destruct e'; simpl in Hr; inversion Hr; subst;
        (split; [reflexivity | intros c0 err0 He; discriminate He]).
    - exfalso. exact (fetch_weather_not_raised self city units w e Et Hr). }
  split; [split; [exact Hto|]|].
  - intros [Et Hn]. rewrite (fetch_weather_raised self city units w e Et).
    destruct e; try reflexivity. exfalso. exact (Hn _ _ eq_refl).
  - intros Hr. destruct (Hto Hr) as [Et Hn].
    rewrite (events_of_app _ _ [HttpGet BASE_URL (query self city units)]);
      [reflexivity|].
    rewrite (fetch_weather_raised self city units w e Et).
    destruct e; try reflexivity. exfalso. exact (Hn _ _ eq_refl).
Qed.

(** X3. When [requests.get] raises an exception of [requests], the line
    printed is "Request timed out." exactly for the classes [Timeout] and
    [ReadTimeout]: a [ConnectTimeout], which is also a [ConnectionError],
    is caught by the earlier clause and reported as a connection error. *)
Theorem timeout_message_classes (self : WeatherClient) (city units : string)
    (w : world) (c : requests_class) (err : string) :
  remote w (trace w) BASE_URL (query self city units) = Raise (RequestsError c err) ->
  (printed (events_of (fetch_weather self city units) w) = ["❌ Request timed out."] <->
   c = Timeout \/ c = ReadTimeout) /\
  (c = ConnectTimeout ->
   printed (events_of (fetch_weather self city units) w) =
     ["❌ Network connection error. Check your internet."]).
Proof.
  intros Hr.
  pose proof (fetch_weather_cases self city units w) as H. cbv zeta in H.
  rewrite Hr in H.
  assert (Hp : printed (events_of (fetch_weather self city units) w) =
               [failure_message (handler_class c) err]).
  { rewrite (events_of_app _ _
               [HttpGet BASE_URL (query self city units);
                Print (failure_message (handler_class c) err)]);
      [reflexivity|].
    rewrite H. simpl. rewrite <- app_assoc. reflexivity. }
  rewrite Hp. split.
  - split.
    + destruct c; simpl; intros E; try discriminate E; auto.
    + intros [-> | ->]; reflexivity.
  - intros ->. reflexivity.
Qed.


(** *** format_unix_time *)

Lemma format_unix_time_is_timestamp (v : json) (text : string) :
  format_unix_time v = Ok text -> is_timestamp v = true.
Proof.
  unfold format_unix_time, is_timestamp.
  destruct (fromtimestamp v) as [d| |] eqn:E; try discriminate. intros _.
  apply fromtimestamp_ok in E. destruct E as [t [-> [Hr _]]]. exact Hr.
Qed.

Lemma format_unix_time_raise_kind (v : json) (e : exn) :
  format_unix_time v = Raise e ->
  (is_number v = false /\ e = TypeError) \/
  (is_number v = true /\ (e = ValueError \/ e = OverflowError \/ e = OSError)).
Proof.
  unfold format_unix_time. destruct (fromtimestamp v) as [d|e'|] eqn:E; try discriminate.
  intros H. inversion H; subst. exact (fromtimestamp_raise v e E).
Qed.

(** X4. [format_unix_time] gives a text exactly for a number whose
    second [fromtimestamp] takes, and the text is the 12-hour reading of
    the local time then; anything that is not a number raises
    [TypeError]; any other number raises [ValueError], [OverflowError] or
    [OSError], and it is [OverflowError] for an integer that does not
    fit the 64 bits of [time_t]. *)
Theorem format_unix_time_outcomes (v : json) :
  (is_timestamp v = true ->
   exists t text, timestamp_second v = Some t /\ format_unix_time v = Ok text /\
                  clock_12h (t + utcoffset rt t) text) /\
  ((exists text, format_unix_time v = Ok text) -> is_timestamp v = true) /\
  (is_number v = false -> format_unix_time v = Raise TypeError) /\
  (is_number v = true -> is_timestamp v = false ->
   format_unix_time v = Raise ValueError \/
   format_unix_time v = Raise OverflowError \/
   format_unix_time v = Raise OSError) /\
  (forall t, v = JInt t -> t < time_t_min \/ time_t_max < t ->
   format_unix_time v = Raise OverflowError).
Proof.
  split; [|split; [|split; [|split]]].
  - unfold is_timestamp. destruct (timestamp_second v) as [t|] eqn:E; [|discriminate].
    intros Hr. exists t, (strftime_I_M_p (t + utcoffset rt t)).
    split; [reflexivity|]. split; [apply (format_unix_time_second v t E Hr)|].
    apply strftime_clock_12h.
  - intros [text H]. exact (format_unix_time_is_timestamp v text H).
  - destruct v; simpl; intros H; try discriminate H; reflexivity.
  - intros Hn Ht.
    destruct (format_unix_time v) as [text|e|] eqn:E.
    + rewrite (format_unix_time_is_timestamp v text E) in Ht. discriminate Ht.
    + destruct (format_unix_time_raise_kind v e E) as [[H _]|[_ [-> |[-> | ->]]]];
        [rewrite H in Hn; discriminate Hn | auto | auto | auto].
    + exfalso. exact (format_unix_time_not_diverged v E).
  - intros t -> Ht. unfold format_unix_time, fromtimestamp, object_to_time_t.
    destruct ((time_t_min <=? t) && (t <=? time_t_max)) eqn:E; [|reflexivity].
    apply andb_prop in E. destruct E as [E1 E2]. apply Z.leb_le in E1, E2. lia.
Qed.

Lemma strftime_daily (d k : Z) :
  strftime_I_M_p (d + 86400 * k) = strftime_I_M_p d.
Proof.
  unfold strftime_I_M_p, hour, minute.
  assert (H1 : (d + 86400 * k) mod 86400 = d mod 86400)
    by (rewrite (Z.mul_comm 86400 k); apply Z.mod_add; lia).
  assert (H2 : (d + 86400 * k) mod 3600 = d mod 3600).
  { replace (d + 86400 * k) with (d + (24 * k) * 3600) by lia.
    apply Z.mod_add. lia. }
  rewrite H1, H2. reflexivity.
Qed.

(** X5. The text of [format_unix_time] carries no date: two instants a
    whole number of days apart, under the same offset from UTC, give the
    same text. *)
Theorem format_unix_time_daily (t k : Z) :
  utcoffset rt (t + 86400 * k) = utcoffset rt t ->
  in_datetime_range t = true ->
  in_datetime_range (t + 86400 * k) = true ->
  format_unix_time (JInt (t + 86400 * k)) = format_unix_time (JInt t).
Proof.
  intros Hoff H1 H2.
  rewrite (format_unix_time_second (JInt t) t eq_refl H1).
  rewrite (format_unix_time_second (JInt (t + 86400 * k)) _ eq_refl H2).
  rewrite Hoff. f_equal.
  replace (t + 86400 * k + utcoffset rt t) with (t + utcoffset rt t + 86400 * k) by lia.
  apply strftime_daily.
Qed.

Lemma strftime_half_day (d : Z) :
  exists hh mm,
    (strftime_I_M_p d = hh +:+ ":" +:+ mm +:+ " AM" /\
     strftime_I_M_p (d + 43200) = hh +:+ ":" +:+ mm +:+ " PM") \/
    (strftime_I_M_p d = hh +:+ ":" +:+ mm +:+ " PM" /\
     strftime_I_M_p (d + 43200) = hh +:+ ":" +:+ mm +:+ " AM").
Proof.
  unfold strftime_I_M_p, hour, minute.
  assert (Hm : (d + 43200) mod 3600 = d mod 3600).
  { replace (d + 43200) with (d + 12 * 3600) by lia. apply Z.mod_add. lia. }
  assert (Hh : ((d + 43200) mod 86400 / 3600) mod 12 = (d mod 86400 / 3600) mod 12).
  { Z.div_mod_to_equations. lia. }
  assert (Hp : ((d + 43200) mod 86400 / 3600 <? 12) = negb (d mod 86400 / 3600 <? 12)).
  { destruct (d mod 86400 / 3600 <? 12) eqn:L;
      [apply Z.ltb_lt in L; apply Z.ltb_ge | apply Z.ltb_ge in L; apply Z.ltb_lt];
      Z.div_mod_to_equations; lia. }
  rewrite Hm, Hh, Hp.
  eexists _, _.
  destruct (d mod 86400 / 3600 <? 12); [left|right]; split; reflexivity.
Qed.

(** X6. Twelve hours later, under the same offset from UTC,
    [format_unix_time] gives the same hour and minute and the other of
    AM and PM. *)
Theorem format_unix_time_half_day (t : Z) :
  utcoffset rt (t + 43200) = utcoffset rt t ->
  in_datetime_range t = true ->
  in_datetime_range (t + 43200) = true ->
  exists hh mm,
    (format_unix_time (JInt t) = Ok (hh +:+ ":" +:+ mm +:+ " AM") /\
     format_unix_time (JInt (t + 43200)) = Ok (hh +:+ ":" +:+ mm +:+ " PM")) \/
    (format_unix_time (JInt t) = Ok (hh +:+ ":" +:+ mm +:+ " PM") /\
     format_unix_time (JInt (t + 43200)) = Ok (hh +:+ ":" +:+ mm +:+ " AM")).
Proof.
  intros Hoff H1 H2.
  rewrite (format_unix_time_second (JInt t) t eq_refl H1).
  rewrite (format_unix_time_second (JInt (t + 43200)) _ eq_refl H2).
  rewrite Hoff.
  replace (t + 43200 + utcoffset rt t) with (t + utcoffset rt t + 43200) by lia.
  destruct (strftime_half_day (t + utcoffset rt t)) as [hh [mm [[E1 E2]|[E1 E2]]]];
    exists hh, mm; [left|right]; rewrite E1, E2; split; reflexivity.
Qed.


(** *** show_weather, beyond the claims *)

Lemma sun_line_ok_iff (label : string) (o : option json) :
  (exists l, sun_line label o = Ok l) <-> sun_ok o = true.
Proof.
  split; [|apply sun_ok_line].
  unfold sun_line, sun_ok. cbv zeta.
  destruct (truthy _); simpl; [|reflexivity].
  destruct (format_unix_time _) eqn:E; intros [l H]; try discriminate H.
  apply (format_unix_time_is_timestamp _ _ E).
Qed.

Lemma sun_line_raise (label : string) (o : option json) (e : exn) :
  sun_line label o = Raise e ->
  e = TypeError \/ e = ValueError \/ e = OverflowError \/ e = OSError.
Proof.
  unfold sun_line. cbv zeta. destruct (truthy _); [|discriminate].
  destruct (format_unix_time _) as [text|e'|] eqn:E; try discriminate.
  intros H. inversion H; subst.
  destruct (format_unix_time_raise_kind _ _ E) as [[_ ->]|[_ [-> |[-> | ->]]]]; auto.
Qed.

(** X7. On a document that is not well shaped (not a dict, or with a
    sys, main or wind member that is not a dict) [show_weather] raises
    [AttributeError] after printing the header and nothing else. *)
Theorem show_weather_ill_shaped (data : json) (units : string) (w : world) :
  well_shaped data = false ->
  fst (show_weather data units w) = Raise AttributeError /\
  events_of (show_weather data units) w = [Print header].
Proof.
  intros Hw. destruct (show_weather_rendering data units w) as [Hres _].
  rewrite Hres, show_weather_events. unfold rendering. rewrite Hw.
  split; reflexivity.
Qed.

Lemma sun_line_shape (label : string) (o : option json) (l : list event) :
  sun_line label o = Ok l ->
  l = [] \/ exists text, l = [Print (label +:+ text)].
Proof.
  intros H.
  destruct (sun_line_cases label o) as [H1|[[t H1]|[e H1]]];
    rewrite H1 in H; inversion H; eauto.
Qed.

Lemma rendering_returns (data : json) (units : string) :
  snd (rendering data units) = Ok tt <->
  well_shaped data = true /\
  sun_ok (field data "sys" "sunrise") = true /\
  sun_ok (field data "sys" "sunset") = true.
Proof.
  rewrite <- (sun_line_ok_iff "Sunrise: "), <- (sun_line_ok_iff "Sunset:  ").
  unfold rendering. destruct (well_shaped data).
  - destruct (sun_line "Sunrise: " _) as [l1|e1|];
      [destruct (sun_line "Sunset:  " _) as [l2|e2|]| |]; cbn [snd];
      (split; [intros H; try discriminate H; eauto
              |intros [_ [[? H1] [? H2]]]; try discriminate H1;
               try discriminate H2; reflexivity]).
  - cbn [snd]. split; [discriminate | intros [H _]; discriminate H].
Qed.

(** X8. When its four lines are text that standard output can write,
    [show_weather] returns normally exactly when the document is well
    shaped and its sunrise and sunset are each missing, false in [if]
    or a timestamp [fromtimestamp] takes; what it has printed then is
    the header, the four lines, at most one sunrise line, at most one
    sunset line, and the footer, in this order. *)
Theorem show_weather_returns (data : json) (units : string) (w : world) :
  encodable data units = true ->
  (fst (show_weather data units w) = Ok tt <->
   well_shaped data = true /\
   sun_ok (field data "sys" "sunrise") = true /\
   sun_ok (field data "sys" "sunset") = true) /\
  (fst (show_weather data units w) = Ok tt ->
   exists rise set,
     printed (events_of (show_weather data units) w) =
       [header; location_line data; temperature_line data units;
        humidity_line data; wind_line data] ++ rise ++ set ++ [footer] /\
     (rise = [] \/ exists text, rise = ["Sunrise: " +:+ text]) /\
     (set = [] \/ exists text, set = ["Sunset:  " +:+ text])).
Proof.
  intros _.
  destruct (show_weather_rendering data units w) as [Hres _].
  rewrite Hres, show_weather_events.
  split; [apply rendering_returns|].
  intros Hok. apply rendering_returns in Hok. destruct Hok as [Hw [S1 S2]].
  destruct (sun_ok_line "Sunrise: " _ S1) as [l1 E1].
  destruct (sun_ok_line "Sunset:  " _ S2) as [l2 E2].
  unfold rendering. rewrite Hw, E1, E2. cbn [fst].
  destruct (sun_line_shape _ _ _ E1) as [-> | [t1 ->]];
    destruct (sun_line_shape _ _ _ E2) as [-> | [t2 ->]].
  - exists [], []. split; [reflexivity|]. split; left; reflexivity.
  - exists [], ["Sunset:  " +:+ t2]. split; [reflexivity|].
    split; [left; reflexivity | right; exists t2; reflexivity].
  - exists ["Sunrise: " +:+ t1], []. split; [reflexivity|].
    split; [right; exists t1; reflexivity | left; reflexivity].
  - exists ["Sunrise: " +:+ t1], ["Sunset:  " +:+ t2]. split; [reflexivity|].
    split; right; [exists t1 | exists t2]; reflexivity.
Qed.

(** X9. In a well-shaped document whose four lines are text that
    standard output can write, a sunrise that is true in [if] but no
    timestamp [fromtimestamp] takes makes [show_weather] raise after
    the four lines, so that neither a sunset line nor the footer is
    printed: [TypeError] when it is not a number, and [ValueError],
    [OverflowError] or [OSError] when it is one. A sunset of that kind,
    after a good sunrise, makes it raise in the same way before the
    footer. *)
Theorem show_weather_bad_sun (data : json) (units : string) (w : world) :
  well_shaped data = true ->
  encodable data units = true ->
  (forall v, field data "sys" "sunrise" = Some v ->
   sun_ok (field data "sys" "sunrise") = false ->
   (if is_number v
    then fst (show_weather data units w) = Raise ValueError \/
         fst (show_weather data units w) = Raise OverflowError \/
         fst (show_weather data units w) = Raise OSError
    else fst (show_weather data units w) = Raise TypeError) /\
   printed (events_of (show_weather data units) w) =
     [header; location_line data; temperature_line data units;
      humidity_line data; wind_line data]) /\
  (forall v, field data "sys" "sunset" = Some v ->
   sun_ok (field data "sys" "sunrise") = true ->
   sun_ok (field data "sys" "sunset") = false ->
   (if is_number v
    then fst (show_weather data units w) = Raise ValueError \/
         fst (show_weather data units w) = Raise OverflowError \/
         fst (show_weather data units w) = Raise OSError
    else fst (show_weather data units w) = Raise TypeError) /\
   lines_of "Sunset:  " (events_of (show_weather data units) w) = [] /\
   ~ In footer (printed (events_of (show_weather data units) w))).
Proof.
  intros Hw _.
  destruct (show_weather_rendering data units w) as [Hres _].
  rewrite Hres, show_weather_events. unfold rendering. rewrite Hw.
  pose proof (sun_line_ok_iff "Sunrise: " (field data "sys" "sunrise")) as I1.
  pose proof (sun_line_ok_iff "Sunset:  " (field data "sys" "sunset")) as I2.
  assert (Hkind : forall label o v e, o = Some v -> sun_line label o = Raise e ->
            if is_number v
            then Raise (A:=unit) e = Raise ValueError \/
                 Raise (A:=unit) e = Raise OverflowError \/
                 Raise (A:=unit) e = Raise OSError
            else Raise (A:=unit) e = Raise TypeError).
  { intros label o v e -> H. unfold sun_line in H. cbv zeta in H.
    destruct (truthy v); [|discriminate H].
    destruct (format_unix_time v) as [text|e'|] eqn:E; try discriminate H.
    inversion H; subst.
    destruct (format_unix_time_raise_kind v e E) as [[-> ->]|[-> [-> |[-> | ->]]]];
      auto. }
  split.
  - intros v Hv Hbad.
    destruct (sun_line_cases "Sunrise: " (field data "sys" "sunrise"))
      as [H1|[[t1 H1]|[e1 H1]]].
    + rewrite (proj1 I1 (ex_intro _ _ H1)) in Hbad. discriminate Hbad.
    + rewrite (proj1 I1 (ex_intro _ _ H1)) in Hbad. discriminate Hbad.
    + rewrite H1. cbn [fst snd]. split; [|reflexivity].
      exact (Hkind _ _ v e1 Hv H1).
  - intros v Hv Hgood Hbad.
    destruct (sun_line_cases "Sunset:  " (field data "sys" "sunset"))
      as [H2|[[t2 H2]|[e2 H2]]];
      try (rewrite (proj1 I2 (ex_intro _ _ H2)) in Hbad; discriminate Hbad).
    pose proof (Hkind _ _ v e2 Hv H2) as He.
    destruct (sun_line_cases "Sunrise: " (field data "sys" "sunrise"))
      as [H1|[[t1 H1]|[e1 H1]]]; rewrite H1; rewrite ?H2; cbn [fst snd].
    + split; [exact He|]. split; [reflexivity|].
      unfold header, footer, location_line, temperature_line, humidity_line, wind_line.
      simpl. intros [H|[H|[H|[H|[H|[]]]]]]; discriminate H.
    + split; [exact He|]. split; [reflexivity|].
      unfold header, footer, location_line, temperature_line, humidity_line, wind_line.
      simpl. intros [H|[H|[H|[H|[H|[H|[]]]]]]]; discriminate H.
    + apply I1 in Hgood. destruct Hgood as [l Hl]. rewrite H1 in Hl. discriminate Hl.
Qed.


(** X11. [show_weather] does nothing but print: on any document its
    events are all [print] calls (no prompt, no request), and it reads
    nothing from standard input. *)
Theorem show_weather_only_prints (data : json) (units : string) (w : world) :
  events_of (show_weather data units) w =
    map Print (printed (events_of (show_weather data units) w)) /\
  requests (events_of (show_weather data units) w) = [] /\
  stdin (snd (show_weather data units w)) = stdin w.
Proof.
  rewrite show_weather_events, (keeps_stdin_show_weather data units w).
  unfold rendering. destruct (well_shaped data); [|repeat split; reflexivity].
  sun_line_split "Sunrise: " (field data "sys" "sunrise");
    try sun_line_split "Sunset:  " (field data "sys" "sunset");
    repeat split; reflexivity.
Qed.


(** *** get_units, line by line *)

Lemma get_units_loop_run (bad : list string) :
  forall (fuel : nat) (w : world),
  forallb (fun l => negb (valid_choice l)) bad = true ->
  (length bad < fuel)%nat ->
  (forall good rest, stdin w = bad ++ good :: rest -> valid_choice good = true ->
     fst (get_units_loop fuel w) = Ok (units_of_choice good) /\
     stdin (snd (get_units_loop fuel w)) = rest /\
     trace (snd (get_units_loop fuel w)) =
       trace w ++ retries bad ++ [Prompt units_prompt]) /\
  (stdin w = bad ->
     fst (get_units_loop fuel w) = Raise EOFError /\
     stdin (snd (get_units_loop fuel w)) = [] /\
     trace (snd (get_units_loop fuel w)) =
       trace w ++ retries bad ++ [Prompt units_prompt]).
Proof.
  induction bad as [|b bad IH]; intros fuel w Hbad Hfuel;
    (destruct fuel as [|fuel]; [simpl in Hfuel; lia|]).
  - split.
    + intros good rest E Hgood. simpl in E.
      rewrite (get_units_loop_step fuel w good rest E). cbv zeta.
      unfold valid_choice in Hgood. unfold units_of_choice.
      destruct (String.eqb (lower (strip good)) "c"); [repeat split|].
      destruct (String.eqb (lower (strip good)) "f"); [repeat split|].
      discriminate Hgood.
    + intros E. rewrite (get_units_loop_eof fuel w E). simpl. rewrite E.
      repeat split.
  - simpl in Hbad. apply andb_prop in Hbad. destruct Hbad as [Hb Hbad].
    unfold valid_choice in Hb. apply negb_true_iff in Hb.
    apply orb_false_iff in Hb. destruct Hb as [Hc Hf].
    set (w1 := emit (Print "Invalid option. Please enter C or F.")
                 (set_stdin bad (emit (Prompt units_prompt) w))).
    split.
    + intros good rest E Hgood. simpl in E.
      rewrite (get_units_loop_step fuel w b _ E). cbv zeta. rewrite Hc, Hf.
      destruct (IH fuel (emit (Print "Invalid option. Please enter C or F.")
                           (set_stdin (bad ++ good :: rest)
                              (emit (Prompt units_prompt) w))) Hbad
                  ltac:(simpl in Hfuel; lia)) as [Hrun _].
      destruct (Hrun good rest eq_refl Hgood) as [R1 [R2 R3]].
      split; [exact R1|]. split; [exact R2|]. rewrite R3. simpl.
      rewrite <- !app_assoc. reflexivity.
    + intros E.
      rewrite (get_units_loop_step fuel w b _ E). cbv zeta. rewrite Hc, Hf.
      destruct (IH fuel w1 Hbad ltac:(simpl in Hfuel; lia)) as [_ Hrun].
      destruct (Hrun eq_refl) as [R1 [R2 R3]]. fold w1.
      split; [exact R1|]. split; [exact R2|]. rewrite R3. simpl.
      rewrite <- !app_assoc. reflexivity.
Qed.

(** X12. [get_units] reads up to the first acceptable line and no
    further: the rejected lines before it each cost a prompt and an
    error line, it returns the units of the accepted line, and the
    lines after it stay on standard input. *)
Theorem get_units_skips_invalid (w : world) (bad : list string) (good : string)
    (rest : list string) :
  stdin w = bad ++ good :: rest ->
  forallb (fun l => negb (valid_choice l)) bad = true ->
  valid_choice good = true ->
  fst (get_units w) = Ok (units_of_choice good) /\
  stdin (snd (get_units w)) = rest /\
  events_of get_units w = retries bad ++ [Prompt units_prompt].
Proof.
  intros E Hbad Hgood.
  assert (Hfuel : (length bad < S (length (stdin w)))%nat)
    by (rewrite E, length_app; lia).
  destruct (get_units_loop_run bad (S (length (stdin w))) w Hbad Hfuel) as [Hrun _].
  destruct (Hrun good rest E Hgood) as [R1 [R2 R3]].
  split; [exact R1|]. split; [exact R2|]. apply events_of_app. exact R3.
Qed.

(** X13. When standard input holds no acceptable line, [get_units]
    rejects every line in turn, prompts once more and raises [EOFError]
    with the input used up; it never guesses a unit. *)
Theorem get_units_end_of_input (w : world) :
  forallb (fun l => negb (valid_choice l)) (stdin w) = true ->
  fst (get_units w) = Raise EOFError /\
  stdin (snd (get_units w)) = [] /\
  events_of get_units w = retries (stdin w) ++ [Prompt units_prompt].
Proof.
  intros Hbad.
  destruct (get_units_loop_run (stdin w) (S (length (stdin w))) w Hbad
              ltac:(lia)) as [_ Hrun].
  destruct (Hrun eq_refl) as [R1 [R2 R3]].
  split; [exact R1|]. split; [exact R2|]. apply events_of_app. exact R3.
Qed.


(** *** What every part of the program obeys *)

Section Obeys.

Context (P : event -> Prop) (E : exn -> Prop).

Lemma obeys_ret {A} (Q : A -> Prop) (a : A) : Q a -> obeys P Q E (ret a).
Proof.
  intros H w. split; [exists []; rewrite app_nil_r; auto|].
  split; [exists []; reflexivity | exact H].
Qed.

Lemma obeys_diverged {A} (Q : A -> Prop) : obeys P Q E (lift Diverged).
Proof.
  intros w. split; [exists []; rewrite app_nil_r; auto|].
  split; [exists []; reflexivity | exact I].
Qed.

Lemma obeys_lift {A} (r : result A) :
  (forall e, r = Raise e -> E e) -> obeys P (fun _ => True) E (lift r).
Proof.
  intros H w. split; [exists []; rewrite app_nil_r; auto|].
  split; [exists []; reflexivity|]. simpl. destruct r; auto.
Qed.

Lemma obeys_print (s : string) :
  P (Print s) -> obeys P (fun _ => True) E (print s).
Proof.
  intros H w. split; [exists [Print s]; auto|].
  split; [exists []; reflexivity | exact I].
Qed.

Lemma obeys_input (prompt : string) :
  P (Prompt prompt) -> E EOFError -> obeys P (fun _ => True) E (input prompt).
Proof.
  intros H He w. unfold input. simpl. destruct (stdin w) as [|line rest] eqn:Es; simpl.
  - split; [exists [Prompt prompt]; auto|].
    split; [exists []; simpl; rewrite Es; reflexivity | exact He].
  - split; [exists [Prompt prompt]; auto|].
    split; [exists [line]; reflexivity | exact I].
Qed.

Lemma obeys_bind {A B} (Q1 : A -> Prop) (Q2 : B -> Prop) (m : M A) (k : A -> M B) :
  obeys P Q1 E m -> (forall a, Q1 a -> obeys P Q2 E (k a)) ->
  obeys P Q2 E (bind m k).
Proof.
  intros Hm Hk w. unfold bind.
  destruct (Hm w) as [[evs [Ht Hp]] [[used Hs] Hr]].
  destruct (m w) as [[a|e|] w1]; simpl in *.
  - destruct (Hk a Hr w1) as [[evs' [Ht' Hp']] [[used' Hs'] Hr']].
    split; [exists (evs ++ evs'); split;
              [rewrite Ht', Ht, app_assoc; reflexivity | apply Forall_app; auto]|].
    split; [exists (used ++ used'); rewrite Hs, Hs', app_assoc; reflexivity|].
    exact Hr'.
  - split; [exists evs; auto|]. split; [exists used; exact Hs | exact Hr].
  - split; [exists evs; auto|]. split; [exists used; exact Hs | exact I].
Qed.

Hypothesis P_print : forall s, P (Print s).
Hypothesis P_prompt : forall s, P (Prompt s).
Hypothesis E_builtin : forall e, not_from_requests e -> E e.

Ltac obey :=
  repeat first
    [ apply (obeys_bind (fun _ => True)); [|intros ? _]
    | apply obeys_print; apply P_print
    | apply obeys_lift; intros ? He;
      first [ destruct (format_unix_time_raise_kind _ _ He)
                as [[_ ->]|[_ [-> |[-> | ->]]]]
            | match type of He with
              | py_get ?o _ _ = _ => destruct o; inversion He
              end ];
      apply E_builtin; exact I
    | apply obeys_ret; exact I
    | match goal with
      | |- obeys _ _ _ (if ?b then _ else _) => destruct b
      end ].

Lemma obeys_show_weather (data : json) (units : string) :
  obeys P (fun _ => True) E (show_weather data units).
Proof. unfold show_weather. obey. Qed.

Lemma obeys_main_dispatch (data : json) (units : string) :
  obeys P (fun c => c = Continue) E (main_dispatch data units).
Proof.
  pose proof (obeys_show_weather data units) as Hshow.
  assert (Hret : obeys P (fun c => c = Continue) E (ret Continue))
    by (apply obeys_ret; reflexivity).
  unfold main_dispatch.
  destruct data;
    [ apply (obeys_bind (fun _ => True)); [apply obeys_print; apply P_print|];
      intros _ _; exact Hret | .. ].
  all: apply (obeys_bind (fun _ => True));
    [apply obeys_lift; intros ? He; inversion He; apply E_builtin; exact I|].
  all: intros cod _; destruct (negb _);
    [ apply (obeys_bind (fun _ => True));
        [apply obeys_lift; intros ? He; inversion He; apply E_builtin; exact I|];
      intros message _;
      apply (obeys_bind (fun _ => True)); [apply obeys_print; apply P_print|];
      intros _ _; exact Hret
    | apply (obeys_bind (fun _ => True)); [exact Hshow|]; intros _ _; exact Hret ].
Qed.

Lemma obeys_get_units_loop (fuel : nat) :
  obeys P (fun u => u = "metric" \/ u = "imperial") E (get_units_loop fuel).
Proof.
  induction fuel as [|fuel IH]; [apply obeys_diverged|].
  simpl. apply (obeys_bind (fun _ => True)).
  - apply obeys_input; [apply P_prompt | apply E_builtin; exact I].
  - intros line _.
    destruct (String.eqb (lower (strip line)) "c"); [apply obeys_ret; auto|].
    destruct (String.eqb (lower (strip line)) "f"); [apply obeys_ret; auto|].
    apply (obeys_bind (fun _ => True)); [apply obeys_print; apply P_print|].
    intros _ _. exact IH.
Qed.

Lemma obeys_get_units :
  obeys P (fun u => u = "metric" \/ u = "imperial") E get_units.
Proof. intros w. unfold get_units. apply obeys_get_units_loop. Qed.

Lemma obeys_fetch_weather (client : WeatherClient) (city units : string) :
  P (HttpGet BASE_URL (query client city units)) ->
  obeys P (fun _ => True) E (fetch_weather client city units).
Proof.
  intros Hreq w. rewrite fetch_weather_cases. cbv zeta.
  assert (H1 : Forall P [HttpGet BASE_URL (query client city units)])
    by (constructor; [exact Hreq | constructor]).
  assert (H2 : forall s, Forall P [HttpGet BASE_URL (query client city units); Print s])
    by (intros s; constructor; [exact Hreq | constructor; [apply P_print | constructor]]).
  destruct (remote w (trace w) BASE_URL (query client city units)) as [r|e|].
  - destruct ((400 <=? status_code r) && (status_code r <? 600));
      [|destruct (json_body r) as [e|doc]]; simpl.
    + split; [eexists; split; [rewrite <- app_assoc; reflexivity | apply H2]|].
      split; [exists []; reflexivity | exact I].
    + destruct e as [| | | | | |c err|]; simpl;
        try (split; [eexists; split; [reflexivity | apply H1]|];
             split; [exists []; reflexivity | apply E_builtin; exact I]).
      split; [eexists; split; [rewrite <- app_assoc; reflexivity | apply H2]|].
      split; [exists []; reflexivity | exact I].
    + split; [eexists; split; [reflexivity | apply H1]|].
      split; [exists []; reflexivity | exact I].
  - destruct e as [| | | | | |c err|]; simpl;
      try (split; [eexists; split; [reflexivity | apply H1]|];
           split; [exists []; reflexivity | apply E_builtin; exact I]).
    split; [eexists; split; [rewrite <- app_assoc; reflexivity | apply H2]|].
    split; [exists []; reflexivity | exact I].
  - simpl. split; [eexists; split; [reflexivity | apply H1]|].
    split; [exists []; reflexivity | exact I].
Qed.

Context (client : WeatherClient).

Hypothesis P_request : forall city units,
  lower city <> "exit" -> units = "metric" \/ units = "imperial" ->
  P (HttpGet BASE_URL (query client city units)).

Lemma obeys_main_turn (city : string) :
  lower city <> "exit" ->
  obeys P (fun c => c = Continue) E
    (units <- get_units;;
     data <- fetch_weather client city units;;
     main_dispatch data units).
Proof.
  intros Hcity.
  apply (obeys_bind (fun u => u = "metric" \/ u = "imperial")); [apply obeys_get_units|].
  intros units Hu. apply (obeys_bind (fun _ => True)).
  - apply obeys_fetch_weather. apply P_request; assumption.
  - intros data _. apply obeys_main_dispatch.
Qed.

Lemma obeys_main_body : obeys P (fun _ => True) E (main_body client).
Proof.
  unfold main_body. apply (obeys_bind (fun _ => True)).
  - apply obeys_input; [apply P_prompt | apply E_builtin; exact I].
  - intros line _. cbv zeta.
    destruct (String.eqb (lower (strip line)) "exit") eqn:Hexit.
    + apply (obeys_bind (fun _ => True)); [apply obeys_print; apply P_print|].
      intros _ _. apply obeys_ret. exact I.
    + apply String.eqb_neq in Hexit.
      intros w. destruct (obeys_main_turn (strip line) Hexit w) as [Ht [Hs Hr]].
      split; [exact Ht|]. split; [exact Hs|].
      destruct (fst _); auto.
Qed.

Lemma obeys_main_loop (fuel : nat) : obeys P (fun _ => True) E (main_loop fuel client).
Proof.
  induction fuel as [|fuel IH]; [apply obeys_diverged|].
  simpl. apply (obeys_bind (fun _ => True)); [apply obeys_main_body|].
  intros [|] _; [exact IH | apply obeys_ret; exact I].
Qed.

End Obeys.


(** *** One turn of the loop of main *)

Lemma fetch_weather_failure (self : WeatherClient) (city units : string) (w : world)
    (k : failure_class) (err : string) :
  failure_of (remote w (trace w) BASE_URL (query self city units)) = Some (k, err) ->
  fetch_weather self city units w =
    (Ok JNull, emit (Print (failure_message k err))
                 (emit (HttpGet BASE_URL (query self city units)) w)).
Proof.
  intros H. rewrite fetch_weather_cases. cbv zeta. unfold failure_of in H.
  destruct (remote w (trace w) BASE_URL _) as [r|e|]; try discriminate.
  - destruct ((400 <=? status_code r) && (status_code r <? 600)).
    + inversion H; subst. reflexivity.
    + destruct (json_body r) as [[| | | | | |c err'|]|d]; try discriminate.
      inversion H; subst. reflexivity.
  - destruct e as [| | | | | |c err'|]; try discriminate.
    inversion H; subst. reflexivity.
Qed.

Lemma fetch_weather_success (self : WeatherClient) (city units : string) (w : world)
    (doc : json) :
  success_of (remote w (trace w) BASE_URL (query self city units)) = Some doc ->
  fetch_weather self city units w =
    (Ok doc, emit (HttpGet BASE_URL (query self city units)) w).
Proof.
  intros H. rewrite fetch_weather_cases. cbv zeta. unfold success_of in H.
  destruct (remote w (trace w) BASE_URL _) as [r|e|]; try discriminate.
  destruct ((400 <=? status_code r) && (status_code r <? 600)); try discriminate.
  destruct (json_body r) as [err|d]; try discriminate.
  inversion H; subst. reflexivity.
Qed.

(** A turn on a city line and an acceptable units line comes to the
    fetch with both prompts written and both lines read. *)
Lemma main_body_turn (client : WeatherClient) (w : world)
    (line uline : string) (rest : list string) :
  stdin w = line :: uline :: rest ->
  lower (strip line) <> "exit" ->
  valid_choice uline = true ->
  main_body client w =
    (data <- fetch_weather client (strip line) (units_of_choice uline);;
     main_dispatch data (units_of_choice uline))
      (set_stdin rest (emit (Prompt units_prompt) (emit (Prompt city_prompt) w))).
Proof.
  intros E Hne Hv.
  rewrite (main_body_dispatch client w line (uline :: rest) E Hne).
  unfold bind at 1.
  set (w1 := set_stdin (uline :: rest) (emit (Prompt city_prompt) w)).
  rewrite (get_units_unfold (S (length (stdin w1))) w1) by lia.
  rewrite (get_units_loop_step _ w1 uline rest eq_refl). cbv zeta.
  unfold valid_choice in Hv. unfold units_of_choice.
  destruct (String.eqb (lower (strip uline)) "c"); [reflexivity|].
  destruct (String.eqb (lower (strip uline)) "f"); [reflexivity|discriminate Hv].
Qed.

(** X16. A turn whose fetch fails, in whichever of the four ways, prints
    the line of that failure and then the line "No data returned", shows
    no weather block, and goes back to the city prompt with the
    remaining input untouched. *)
Theorem failed_fetch_turn (client : WeatherClient) (w : world)
    (line uline : string) (rest : list string) (k : failure_class) (err : string) :
  stdin w = line :: uline :: rest ->
  lower (strip line) <> "exit" ->
  valid_choice uline = true ->
  failure_of (remote w (trace w ++ [Prompt city_prompt; Prompt units_prompt]) BASE_URL
                (query client (strip line) (units_of_choice uline))) = Some (k, err) ->
  fst (main_body client w) = Ok Continue /\
  stdin (snd (main_body client w)) = rest /\
  events_of (main_body client) w =
    turn_events client (strip line) (units_of_choice uline)
    ++ [Print (failure_message k err); Print no_data_line].
Proof.
  intros E Hne Hv Hf.
  rewrite (main_body_turn client w line uline rest E Hne Hv).
  set (w2 := set_stdin rest (emit (Prompt units_prompt) (emit (Prompt city_prompt) w))).
  assert (Hf2 : failure_of (remote w2 (trace w2) BASE_URL
                  (query client (strip line) (units_of_choice uline))) = Some (k, err)).
  { simpl. rewrite <- app_assoc. exact Hf. }
  assert (Hrun : (data <- fetch_weather client (strip line) (units_of_choice uline);;
                  main_dispatch data (units_of_choice uline)) w2 =
                 (Ok Continue,
                  emit (Print no_data_line)
                    (emit (Print (failure_message k err))
                       (emit (HttpGet BASE_URL
                                (query client (strip line) (units_of_choice uline))) w2)))).
  { unfold bind at 1. rewrite (fetch_weather_failure _ _ _ _ _ _ Hf2). reflexivity. }
  split; [rewrite Hrun; reflexivity|]. split; [rewrite Hrun; reflexivity|].
  unfold events_of. rewrite (main_body_turn client w line uline rest E Hne Hv).
  fold w2. rewrite Hrun. simpl. rewrite <- !app_assoc. apply drop_app_length.
Qed.

(** X17. A turn whose fetch succeeds with a document of cod 200 sends the
    city as typed but trimmed (its case kept), with the units of the
    choice, and then does exactly what [show_weather] does with the
    document; it goes back to the city prompt when [show_weather]
    returns, and raises what [show_weather] raises. *)
Theorem shown_turn (client : WeatherClient) (w : world)
    (line uline : string) (rest : list string) (items : list (string * json)) :
  stdin w = line :: uline :: rest ->
  lower (strip line) <> "exit" ->
  valid_choice uline = true ->
  success_of (remote w (trace w ++ [Prompt city_prompt; Prompt units_prompt]) BASE_URL
                (query client (strip line) (units_of_choice uline))) = Some (JObj items) ->
  lookup_key "cod" items = Some (JInt 200) \/ lookup_key "cod" items = Some (JStr "200") ->
  events_of (main_body client) w =
    turn_events client (strip line) (units_of_choice uline)
    ++ events_of (show_weather (JObj items) (units_of_choice uline)) w /\
  fst (main_body client w) =
    match fst (show_weather (JObj items) (units_of_choice uline) w) with
    | Ok _ => Ok Continue
    | Raise e => Raise e
    | Diverged => Diverged
    end /\
  stdin (snd (main_body client w)) = rest.
Proof.
  intros E Hne Hv Hs Hcod.
  set (units := units_of_choice uline) in *.
  set (w2 := set_stdin rest (emit (Prompt units_prompt) (emit (Prompt city_prompt) w))).
  set (w3 := emit (HttpGet BASE_URL (query client (strip line) units)) w2).
  assert (Hs2 : success_of (remote w2 (trace w2) BASE_URL
                  (query client (strip line) units)) = Some (JObj items)).
  { simpl. rewrite <- app_assoc. exact Hs. }
  assert (Hrun : main_body client w =
                 (show_weather (JObj items) units;; ret Continue) w3).
  { rewrite (main_body_turn client w line uline rest E Hne Hv). fold units w2.
    unfold bind at 1. rewrite (fetch_weather_success _ _ _ _ _ Hs2). fold w3.
    unfold main_dispatch. unfold bind at 1. unfold lift, py_get.
    destruct Hcod as [-> | ->]; reflexivity. }
  destruct (show_weather_rendering (JObj items) units w3) as [R1 R2].
  destruct (show_weather_rendering (JObj items) units w) as [R1' _].
  pose proof (keeps_stdin_show_weather (JObj items) units w3) as R3.
  rewrite show_weather_events, R1'. rewrite <- R1.
  assert (Hbind : forall r x, show_weather (JObj items) units w3 = (r, x) ->
            (show_weather (JObj items) units;; ret Continue) w3 =
              (match r with Ok _ => Ok Continue | Raise e => Raise e
                          | Diverged => Diverged end, x)).
  { intros r x Hx. unfold bind. rewrite Hx. destruct r; reflexivity. }
  destruct (show_weather (JObj items) units w3) as [r x] eqn:Hx.
  rewrite Hrun, (Hbind r x eq_refl). simpl in R2, R3 |- *.
  split; [|split; [reflexivity | exact R3]].
  unfold events_of. rewrite Hrun, (Hbind r x eq_refl). simpl. rewrite R2.
  unfold turn_events. simpl. rewrite <- !app_assoc. simpl.
  apply drop_app_length.
Qed.

(** X18. A turn whose fetch succeeds with a body that is no JSON object:
    the value null is taken for a failed fetch ("No data returned"), and
    any other value (a list, a string, a number, true or false) makes
    the turn raise [AttributeError] right after the request. *)
Theorem non_object_body_turn (client : WeatherClient) (w : world)
    (line uline : string) (rest : list string) (doc : json) :
  stdin w = line :: uline :: rest ->
  lower (strip line) <> "exit" ->
  valid_choice uline = true ->
  success_of (remote w (trace w ++ [Prompt city_prompt; Prompt units_prompt]) BASE_URL
                (query client (strip line) (units_of_choice uline))) = Some doc ->
  is_dict doc = false ->
  (doc = JNull ->
   fst (main_body client w) = Ok Continue /\
   events_of (main_body client) w =
     turn_events client (strip line) (units_of_choice uline) ++ [Print no_data_line]) /\
  (doc <> JNull ->
   fst (main_body client w) = Raise AttributeError /\
   events_of (main_body client) w =
     turn_events client (strip line) (units_of_choice uline)).
Proof.
  intros E Hne Hv Hs Hd.
  set (units := units_of_choice uline) in *.
  set (w2 := set_stdin rest (emit (Prompt units_prompt) (emit (Prompt city_prompt) w))).
  set (w3 := emit (HttpGet BASE_URL (query client (strip line) units)) w2).
  assert (Hs2 : success_of (remote w2 (trace w2) BASE_URL
                  (query client (strip line) units)) = Some doc).
  { simpl. rewrite <- app_assoc. exact Hs. }
  assert (Hrun : main_body client w = main_dispatch doc units w3).
  { rewrite (main_body_turn client w line uline rest E Hne Hv). fold units w2.
    unfold bind at 1. rewrite (fetch_weather_success _ _ _ _ _ Hs2). reflexivity. }
  unfold events_of. rewrite Hrun. split.
  - intros ->. split; [reflexivity|]. simpl. rewrite <- !app_assoc.
    apply drop_app_length.
  - intros Hnn.
    assert (Hr : main_dispatch doc units w3 = (Raise AttributeError, w3))
      by (destruct doc; try reflexivity; [congruence | discriminate Hd]).
    rewrite Hr. split; [reflexivity|]. simpl. rewrite <- !app_assoc.
    apply drop_app_length.
Qed.


(** *** main as a whole *)

Lemma main_with_key (w : world) (key : string) :
  (environ w ∪ dotenv w) !! "API_KEY" = Some key ->
  key <> "" ->
  main w =
    main_loop (S (length (stdin w))) {| api_key := key |}
      (emit (Print banner) (set_environ (environ w ∪ dotenv w) w)).
Proof.
  intros Hk Hne. unfold main, bind, load_dotenv, getenv. simpl. rewrite Hk.
  destruct key as [|a key]; [congruence|]. reflexivity.
Qed.

Lemma main_without_key (w : world) :
  (environ w ∪ dotenv w) !! "API_KEY" = None \/
  (environ w ∪ dotenv w) !! "API_KEY" = Some "" ->
  main w =
    (Ok tt, emit (Print no_api_key_message) (set_environ (environ w ∪ dotenv w) w)).
Proof.
  intros Hk. unfold main, bind, load_dotenv, getenv. simpl.
  destruct Hk as [-> | ->]; reflexivity.
Qed.

(** From any world, [main] obeys the discipline of its requests. *)
Lemma main_obeys (w : world) (key : string) :
  (environ w ∪ dotenv w) !! "API_KEY" = Some key ->
  (exists evs, trace (snd (main w)) = trace w ++ evs /\
               Forall (well_formed_request key) evs) /\
  (exists used, stdin w = used ++ stdin (snd (main w))) /\
  match fst (main w) with
  | Raise e => not_from_requests e
  | _ => True
  end.
Proof.
  intros Hk. destruct (String.eqb key "") eqn:Hempty.
  - apply String.eqb_eq in Hempty. subst key.
    rewrite (main_without_key w (or_intror Hk)). simpl.
    split; [exists [Print no_api_key_message]; split;
              [reflexivity | constructor; [exact I | constructor]]|].
    split; [exists []; reflexivity | exact I].
  - apply String.eqb_neq in Hempty. rewrite (main_with_key w key Hk Hempty).
    set (w1 := emit (Print banner) (set_environ (environ w ∪ dotenv w) w)).
    assert (Hloop : obeys (well_formed_request key) (fun _ => True) not_from_requests
                      (main_loop (S (length (stdin w))) {| api_key := key |})).
    { apply obeys_main_loop.
      - intros s. exact I.
      - intros s. exact I.
      - intros e He. exact He.
      - intros city units Hc Hu. simpl. split; [reflexivity|].
        exists city, units. auto. }
    destruct (Hloop w1) as [[evs [Ht Hp]] [[used Hs] Hr]].
    split; [exists (Print banner :: evs); split;
              [rewrite Ht; simpl; rewrite <- app_assoc; reflexivity
              |constructor; [exact I | exact Hp]]|].
    split; [exists used; exact Hs|].
    destruct (fst _); auto.
Qed.

(** X14. An API_KEY that is set but empty in the process environment
    counts as missing, whatever the .env file holds: [main] prints the
    error line and returns without reading a line or sending a
    request. *)
Theorem main_empty_api_key (w : world) :
  environ w !! "API_KEY" = Some "" ->
  fst (main w) = Ok tt /\
  events_of main w = [Print no_api_key_message] /\
  stdin (snd (main w)) = stdin w.
Proof.
  intros He.
  assert (Hk : (environ w ∪ dotenv w) !! "API_KEY" = Some "")
    by (apply lookup_union_Some_l; exact He).
  rewrite (main_without_key w (or_intror Hk)). simpl.
  split; [reflexivity|]. split; [|reflexivity].
  apply events_of_app. rewrite (main_without_key w (or_intror Hk)). reflexivity.
Qed.

(** X15. With an API key and no line on standard input, [main] prints
    its banner, writes the city prompt and raises [EOFError]: the end
    of input is not caught. *)
Theorem main_end_of_input (w : world) (key : string) :
  (environ w ∪ dotenv w) !! "API_KEY" = Some key ->
  key <> "" ->
  stdin w = [] ->
  fst (main w) = Raise EOFError /\
  events_of main w = [Print banner; Prompt city_prompt].
Proof.
  intros Hk Hne Hs.
  assert (Hrun : main w =
    (Raise EOFError,
     emit (Prompt city_prompt)
       (emit (Print banner) (set_environ (environ w ∪ dotenv w) w)))).
  { rewrite (main_with_key w key Hk Hne). rewrite Hs. simpl.
    unfold bind at 1. unfold main_body. unfold bind at 1. unfold input. simpl.
    rewrite Hs. reflexivity. }
  rewrite Hrun. split; [reflexivity|].
  apply events_of_app. rewrite Hrun. simpl. rewrite <- app_assoc. reflexivity.
Qed.

(** X19. Every request [main] sends, in any run, goes to the fixed URL
    with the parameters q, appid and units, where appid is the API key
    it found, units is "metric" or "imperial", and the city is never
    the exit command. *)
Theorem main_requests_well_formed (w : world) (key : string) :
  (environ w ∪ dotenv w) !! "API_KEY" = Some key ->
  Forall (well_formed_request key) (events_of main w).
Proof.
  intros Hk. destruct (main_obeys w key Hk) as [[evs [Ht Hp]] _].
  rewrite (events_of_app _ _ _ Ht). exact Hp.
Qed.

(** X21. [main] never ends with an exception of [requests]: every one
    of them is caught in [fetch_weather], so whatever [main] raises
    comes from elsewhere. *)
Theorem main_never_raises_requests (w : world) (e : exn) :
  fst (main w) = Raise e ->
  forall c err, e <> RequestsError c err.
Proof.
  intros H c err ->.
  destruct ((environ w ∪ dotenv w) !! "API_KEY") as [key|] eqn:Hk.
  - destruct (main_obeys w key Hk) as [_ [_ Hr]].
    rewrite H in Hr. exact Hr.
  - rewrite (main_without_key w (or_introl Hk)) in H. discriminate H.
Qed.

Lemma main_body_break (client : WeatherClient) (w : world) :
  fst (main_body client w) = Ok Break ->
  exists line rest, stdin w = line :: rest /\ lower (strip line) = "exit".
Proof.
  destruct (stdin w) as [|line rest] eqn:E.
  - unfold main_body. unfold bind at 1. unfold input. simpl. rewrite E. discriminate.
  - destruct (String.eqb (lower (strip line)) "exit") eqn:Hexit.
    + apply String.eqb_eq in Hexit. eauto.
    + apply String.eqb_neq in Hexit.
      rewrite (main_body_dispatch client w line rest E Hexit).
      destruct (obeys_main_turn (fun _ => True) (fun _ => True)
                  ltac:(intros; exact I) ltac:(intros; exact I) ltac:(intros; exact I)
                  client ltac:(intros; exact I) (strip line) Hexit
                  (set_stdin rest (emit (Prompt city_prompt) w))) as [_ [_ Hr]].
      intros H. rewrite H in Hr. discriminate Hr.
Qed.

Lemma main_loop_returns (client : WeatherClient) (fuel : nat) (w : world) :
  fst (main_loop fuel client w) = Ok tt ->
  exists line, In line (stdin w) /\ lower (strip line) = "exit".
Proof.
  revert w. induction fuel as [|fuel IH]; intros w; [discriminate|].
  simpl. unfold bind.
  pose proof (main_body_break client w) as Hb.
  destruct (obeys_main_body (fun _ => True) (fun _ => True)
              ltac:(intros; exact I) ltac:(intros; exact I) ltac:(intros; exact I)
              client ltac:(intros; exact I) w) as [_ [[used Hs] _]].
  destruct (main_body client w) as [[[|]| |] w1]; simpl in *; try discriminate.
  - intros H. destruct (IH w1 H) as [line [Hin Hexit]].
    exists line. split; [|exact Hexit]. rewrite Hs. apply in_or_app. right. exact Hin.
  - intros _. destruct (Hb eq_refl) as [line [rest [E Hexit]]].
    exists line. split; [|exact Hexit]. rewrite E. left. reflexivity.
Qed.

(** X20. With an API key, the only way [main] returns normally is the
    exit command: if it returns, some line of its input, trimmed and
    lower-cased, is "exit". *)
Theorem main_returns_only_on_exit (w : world) (key : string) :
  (environ w ∪ dotenv w) !! "API_KEY" = Some key ->
  key <> "" ->
  fst (main w) = Ok tt ->
  exists line, In line (stdin w) /\ lower (strip line) = "exit".
Proof.
  intros Hk Hne. rewrite (main_with_key w key Hk Hne). intros H.
  apply (main_loop_returns _ _ _ H).
Qed.


(** X22. The API key [main] sends is the one of the process environment
    when it sets one, and the one of the .env file only when the
    environment sets none. *)
Theorem api_key_source (w : world) (key : string) :
  (environ w !! "API_KEY" = Some key ->
   Forall (well_formed_request key) (events_of main w)) /\
  (environ w !! "API_KEY" = None -> dotenv w !! "API_KEY" = Some key ->
   Forall (well_formed_request key) (events_of main w)).
Proof.
  assert (H : (environ w ∪ dotenv w) !! "API_KEY" = Some key ->
              Forall (well_formed_request key) (events_of main w)).
  { intros Hk. destruct (main_obeys w key Hk) as [[evs [Ht Hp]] _].
    rewrite (events_of_app _ _ _ Ht). exact Hp. }
  split.
  - intros He. apply H. apply lookup_union_Some_l. exact He.
  - intros He Hd. apply H. rewrite lookup_union_r; assumption.
Qed.


(** *** The program ends *)

Lemma settles_ret {A} (a : A) : settles (ret a).
Proof. intros w. split; [reflexivity | discriminate]. Qed.

Lemma settles_lift {A} (r : result A) : r <> Diverged -> settles (lift r).
Proof. intros H w. split; [reflexivity | intros _; exact H]. Qed.

Lemma settles_print (s : string) : settles (print s).
Proof. intros w. split; [reflexivity | discriminate]. Qed.

Lemma settles_input (prompt : string) : settles (input prompt).
Proof.
  intros w. unfold input. simpl.
  destruct (stdin w); split; try reflexivity; discriminate.
Qed.

Lemma settles_bind {A B} (m : M A) (k : A -> M B) :
  settles m -> (forall a, settles (k a)) -> settles (bind m k).
Proof.
  intros Hm Hk w. unfold bind. destruct (Hm w) as [Hr Hd].
  destruct (m w) as [[a|e|] w1]; simpl in *.
  - destruct (Hk a w1) as [Hr' Hd']. split; [rewrite Hr'; exact Hr|].
    intros Ha. apply Hd'. unfold answers. rewrite Hr. exact Ha.
  - split; [exact Hr | discriminate].
  - split; [exact Hr|]. intros Ha _. exact (Hd Ha eq_refl).
Qed.

Lemma py_get_not_diverged (obj : json) (key : string) (default : json) :
  py_get obj key default <> Diverged.
Proof. destruct obj; discriminate. Qed.

Ltac settle :=
  repeat first
    [ apply settles_bind; [|intros ?]
    | apply settles_print
    | apply settles_ret
    | apply settles_lift;
      first [apply py_get_not_diverged | apply format_unix_time_not_diverged]
    | match goal with
      | |- settles (if ?b then _ else _) => destruct b
      end ].

Lemma settles_show_weather (data : json) (units : string) :
  settles (show_weather data units).
Proof. unfold show_weather. settle. Qed.

Lemma settles_main_dispatch (data : json) (units : string) :
  settles (main_dispatch data units).
Proof.
  pose proof (settles_show_weather data units).
  unfold main_dispatch. destruct data; settle; assumption.
Qed.

Lemma settles_fetch_weather (client : WeatherClient) (city units : string) :
  settles (fetch_weather client city units).
Proof.
  intros w. rewrite fetch_weather_cases. cbv zeta.
  destruct (remote w (trace w) BASE_URL (query client city units)) as [r|e|] eqn:Hr.
  - destruct ((400 <=? status_code r) && (status_code r <? 600));
      [|destruct (json_body r) as [[]|]]; split; try reflexivity; discriminate.
  - destruct e; split; try reflexivity; discriminate.
  - split; [reflexivity|]. intros Ha. exfalso. exact (Ha _ _ _ Hr).
Qed.

Lemma settles_get_units_loop (fuel : nat) (w : world) :
  remote (snd (get_units_loop fuel w)) = remote w.
Proof.
  revert w. induction fuel as [|fuel IH]; intros w; [reflexivity|].
  destruct (stdin w) as [|line rest] eqn:E.
  - rewrite get_units_loop_eof by assumption. reflexivity.
  - rewrite (get_units_loop_step fuel w line rest E). cbv zeta.
    destruct (String.eqb (lower (strip line)) "c"); [reflexivity|].
    destruct (String.eqb (lower (strip line)) "f"); [reflexivity|].
    rewrite IH. reflexivity.
Qed.

Lemma settles_get_units : settles get_units.
Proof.
  intros w. unfold get_units. split; [apply settles_get_units_loop|].
  intros _.
  destruct (get_units_loop_ends (S (length (stdin w))) w) as [H|[H|H]];
    [lia | | |]; rewrite H; discriminate.
Qed.

Lemma settles_main_body (client : WeatherClient) : settles (main_body client).
Proof.
  unfold main_body. apply settles_bind; [apply settles_input|].
  intros line. cbv zeta. destruct (String.eqb _ _); [settle|].
  apply settles_bind; [apply settles_get_units|]. intros units.
  apply settles_bind; [apply settles_fetch_weather|]. intros data.
  apply settles_main_dispatch.
Qed.

Lemma main_loop_settles (client : WeatherClient) (fuel : nat) (w : world) :
  (length (stdin w) < fuel)%nat -> answers w ->
  fst (main_loop fuel client w) <> Diverged.
Proof.
  revert w. induction fuel as [|fuel IH]; intros w Hfuel Ha; [lia|].
  simpl. unfold bind.
  pose proof (main_body_reads client w) as Hread.
  destruct (settles_main_body client w) as [Hr Hd]. specialize (Hd Ha).
  destruct (main_body client w) as [[[|]| |] w1]; simpl in *;
    try discriminate; [|congruence].
  apply IH.
  - specialize (Hread Continue eq_refl). lia.
  - unfold answers. rewrite Hr. exact Ha.
Qed.



End Program.

Arguments JNull {rt}.
Arguments JBool {rt} b.
Arguments JInt {rt} z.
Arguments JFloat {rt} f.
Arguments JStr {rt} s.
Arguments JList {rt} l.
Arguments JObj {rt} items.
Arguments events_of {rt A} m w.
Arguments stdin {rt} w.
Arguments trace {rt} w.
Arguments environ {rt} w.
Arguments dotenv {rt} w.
Arguments remote {rt} w.
Arguments emit {rt} ev w.
Arguments set_stdin {rt} lines w.
Arguments set_environ {rt} env w.
Arguments bind {rt A B} m k.
Arguments ret {rt A} a.
Arguments world_of {rt} lines net.
Arguments refusing {rt} _ _ _.
Arguments stalling {rt} _ _ _.
Arguments not_found {rt} _ _ _.
Arguments answering {rt} doc _ _ _.
Arguments paris {rt}.
Arguments sunrise_at_epoch {rt}.
Arguments sunrise_too_far {rt}.
Arguments null_sys {rt}.
Arguments session {rt} lines net.


Arguments interrupting {rt} _ _ _.
Arguments garbling {rt} _ _ _.
Arguments too_deep {rt} _ _ _.
Arguments sunrise_year_one {rt}.
Arguments sunrise_beyond_localtime {rt}.
Arguments connect_timing_out {rt} _ _ _.
Arguments text_sunrise {rt}.
Arguments text_sunset {rt}.
Arguments empty_key_world {rt} lines net.
Arguments two_keys_world {rt} lines net.
Arguments dotenv_world {rt} lines net.


Arguments all_null {rt}.

(** ** Runs on the UTC runtime *)

(** *** Examples of the text methods *)

Example strip_lower_examples :
  lower utc_runtime (strip utc_runtime "C") = "c" /\
  lower utc_runtime (strip utc_runtime " c ") = "c" /\
  lower utc_runtime (strip utc_runtime "F") = "f" /\
  lower utc_runtime (strip utc_runtime "x") = "x" /\
  lower utc_runtime (strip utc_runtime "EXIT") = "exit" /\
  lower utc_runtime (strip utc_runtime "  New York ") = "new york".
Proof. repeat split; reflexivity. Qed.

Example show_weather_paris :
  printed (events_of (show_weather utc_runtime paris "metric") (world_of [] refusing)) =
    [header; "Location: Paris, FR"; "Temperature: 21°C"; "Humidity: 40%";
     "Wind Speed: 3 m/s"; "Sunrise: 10:13 PM"; "Sunset:  09:20 AM"; footer].
Proof. vm_compute. reflexivity. Qed.

(** *** fetch_weather on concrete answers *)

(** Against C1 as stated: a refused connection and a read that times out
    both make [fetch_weather] return [None], so no reading of the
    returned value tells the caller which failure occurred. *)
Lemma fetch_weather_result_hides_failure : ~ result_tells_failure utc_runtime.
Proof.
  intros [classify H].
  pose proof (H client0 "Paris" "metric" (world_of [] refusing)
                ConnectionFailure "Connection refused" JNull eq_refl eq_refl) as H1.
  pose proof (H client0 "Paris" "metric" (world_of [] stalling)
                TimedOut "Read timed out." JNull eq_refl eq_refl) as H2.
  rewrite H1 in H2. discriminate H2.
Qed.

Lemma fetch_weather_result_witness :
  fetch_weather utc_runtime client0 "Paris" "metric" (world_of [] (answering paris)) =
    (Ok paris,
     emit (HttpGet BASE_URL (query client0 "Paris" "metric"))
       (world_of [] (answering paris))) /\
  fetch_weather utc_runtime client0 "Paris" "metric" (world_of [] not_found) =
    (Ok JNull,
     emit (Print "❌ HTTP Error: 404 Client Error: Not Found")
       (emit (HttpGet BASE_URL (query client0 "Paris" "metric"))
          (world_of [] not_found))) /\
  fetch_weather utc_runtime client0 "Paris" "metric" (world_of [] stalling) =
    (Ok JNull,
     emit (Print "❌ Request timed out.")
       (emit (HttpGet BASE_URL (query client0 "Paris" "metric"))
          (world_of [] stalling))) /\
  TimedOut = TimedOut.
Proof.
  split; [|split; [|split]].
  - apply (proj1 (fetch_weather_result utc_runtime client0 "Paris" "metric"
                    (world_of [] (answering paris)))).
    reflexivity.
  - apply (proj1 (proj2 (fetch_weather_result utc_runtime client0 "Paris" "metric"
                           (world_of [] not_found)))
             HttpStatus "404 Client Error: Not Found").
    reflexivity.
  - apply (proj1 (proj2 (fetch_weather_result utc_runtime client0 "Paris" "metric"
                           (world_of [] stalling)))
             TimedOut "Read timed out.").
    reflexivity.
  - apply (proj2 (proj2 (fetch_weather_result utc_runtime client0 "Paris" "metric"
                           (world_of [] stalling)))
             TimedOut TimedOut "a" "b").
    reflexivity.
Defined.

(** *** get_units and the loop on concrete input *)

Lemma get_units_spec_witness :
  get_units utc_runtime (world_of [" c "] refusing) =
    (Ok "metric",
     set_stdin [] (emit (Prompt units_prompt)
                                 (world_of [" c "] refusing))) /\
  get_units utc_runtime (world_of ["F"; "x"] refusing) =
    (Ok "imperial",
     set_stdin ["x"] (emit (Prompt units_prompt)
                                    (world_of ["F"; "x"] refusing))) /\
  get_units utc_runtime (world_of ["x"; "C"] refusing) =
    get_units utc_runtime
      (emit (Print "Invalid option. Please enter C or F.")
         (set_stdin ["C"]
            (emit (Prompt units_prompt) (world_of ["x"; "C"] refusing)))) /\
  ("metric" = "metric" \/ "metric" = "imperial").
Proof.
  split; [|split; [|split]].
  - apply (proj1 (get_units_spec utc_runtime (world_of [" c "] refusing)) " c " []);
      reflexivity.
  - apply (proj1 (get_units_spec utc_runtime (world_of ["F"; "x"] refusing)) "F" ["x"]);
      reflexivity.
  - apply (proj1 (get_units_spec utc_runtime (world_of ["x"; "C"] refusing)) "x" ["C"]);
      [reflexivity | discriminate | discriminate].
  - apply (proj1 (proj2 (get_units_spec utc_runtime (world_of ["x"; "C"] refusing)))
             "metric").
    reflexivity.
Defined.

Lemma exit_ends_loop_witness :
  main_loop utc_runtime 1 client0 (world_of ["EXIT"; "Paris"] refusing) =
    (Ok tt,
     emit (Print "Goodbye!")
       (set_stdin ["Paris"]
          (emit (Prompt city_prompt) (world_of ["EXIT"; "Paris"] refusing)))) /\
  events_of (main_loop utc_runtime 1 client0) (world_of ["EXIT"; "Paris"] refusing) =
    [Prompt city_prompt; Print "Goodbye!"] /\
  requests (events_of (main_loop utc_runtime 1 client0)
              (world_of ["EXIT"; "Paris"] refusing)) = [].
Proof.
  apply (exit_ends_loop utc_runtime client0 0 (world_of ["EXIT"; "Paris"] refusing)
           "EXIT" ["Paris"]); reflexivity.
Defined.

Lemma main_without_api_key_witness :
  fst (main utc_runtime (world_of ["Paris"; "c"] refusing)) = Ok tt /\
  events_of (main utc_runtime) (world_of ["Paris"; "c"] refusing) =
    [Print no_api_key_message] /\
  stdin (snd (main utc_runtime (world_of ["Paris"; "c"] refusing))) = ["Paris"; "c"].
Proof.
  apply (main_without_api_key utc_runtime (world_of ["Paris"; "c"] refusing));
    reflexivity.
Defined.

Lemma utc_runtime_float_repr (f : float utc_runtime) : float_repr utc_runtime f <> "200".
Proof. destruct f; discriminate. Qed.


(** *** show_weather on concrete documents *)

(** Against C2 as stated: the sunrise field is present, with the
    timestamp 0, and [show_weather] prints no sunrise line. *)
Lemma sunrise_present_not_printed :
  field utc_runtime sunrise_at_epoch "sys" "sunrise" = Some (JInt 0) /\
  printed (events_of (show_weather utc_runtime sunrise_at_epoch "metric")
             (world_of [] refusing)) =
    [header; "Location: Paris, N/A"; "Temperature: No data°C";
     "Humidity: No data%"; "Wind Speed: No data m/s"; footer].
Proof. split; vm_compute; reflexivity. Qed.

(** Against C4 as stated: documents on which [show_weather] raises, one
    for its null sys member, one for a sunrise no [datetime] can hold. *)
Lemma show_weather_raises :
  fst (show_weather utc_runtime null_sys "metric" (world_of [] refusing)) =
    Raise AttributeError /\
  fst (show_weather utc_runtime sunrise_too_far "metric" (world_of [] refusing)) =
    Raise ValueError.
Proof. split; vm_compute; reflexivity. Qed.

(** [format_unix_time] at the edges of what [fromtimestamp] takes, on
    a host whose local time is UTC: the first day of year 1 is refused
    (the day before it is year 0), the second day and the last second
    of year 9999 are taken; beyond, the year is out of range until
    [localtime] itself fails, and then [time_t] overflows. *)
Example format_unix_time_edges :
  format_unix_time utc_runtime (JInt (-62135596800)) = Raise ValueError /\
  format_unix_time utc_runtime (JInt (-62135510401)) = Raise ValueError /\
  format_unix_time utc_runtime (JInt (-62135510400)) = Ok "12:00 AM" /\
  format_unix_time utc_runtime (JInt 253402300799) = Ok "11:59 PM" /\
  format_unix_time utc_runtime (JInt 253402300800) = Raise ValueError /\
  format_unix_time utc_runtime (JInt 1000000000000000) = Raise ValueError /\
  format_unix_time utc_runtime (JInt 67768036191676799) = Raise ValueError /\
  format_unix_time utc_runtime (JInt 67768036191676800) = Raise OSError /\
  format_unix_time utc_runtime (JInt 100000000000000000) = Raise OSError /\
  format_unix_time utc_runtime (JInt (-67768040609740800)) = Raise ValueError /\
  format_unix_time utc_runtime (JInt (-67768040609740801)) = Raise OSError /\
  format_unix_time utc_runtime (JInt 9223372036854775807) = Raise OSError /\
  format_unix_time utc_runtime (JInt 9223372036854775808) = Raise OverflowError /\
  format_unix_time utc_runtime (JInt (-9223372036854775809)) = Raise OverflowError /\
  format_unix_time utc_runtime (@JFloat utc_runtime PosInf) = Raise OverflowError /\
  format_unix_time utc_runtime (@JFloat utc_runtime NaN) = Raise ValueError /\
  format_unix_time utc_runtime (JBool true) = Ok "12:00 AM" /\
  format_unix_time utc_runtime JNull = Raise TypeError.
Proof. repeat split; vm_compute; reflexivity. Qed.

(** A sunrise in the first day of year 1 is printed by no line: it makes
    [show_weather] raise after the four lines. *)
Example show_weather_year_one :
  fst (show_weather utc_runtime sunrise_year_one "metric" (world_of [] refusing)) =
    Raise ValueError /\
  lines_of "Sunrise: "
    (events_of (show_weather utc_runtime sunrise_year_one "metric")
       (world_of [] refusing)) = [].
Proof. split; vm_compute; reflexivity. Qed.

(** A body that is not JSON is reported as a general request error;
    one nested too deep makes [fetch_weather] raise. *)
Example fetch_weather_undecodable :
  fetch_weather utc_runtime client0 "Paris" "metric" (world_of [] garbling) =
    (Ok JNull,
     emit (Print "❌ General request error: Expecting value: line 1 column 1 (char 0)")
       (emit (HttpGet BASE_URL (query client0 "Paris" "metric"))
          (world_of [] garbling))) /\
  fst (fetch_weather utc_runtime client0 "Paris" "metric" (world_of [] too_deep)) =
    Raise (OtherError "RecursionError").
Proof. split; vm_compute; reflexivity. Qed.

(** A name with a lone surrogate (U+D800, as JSON can escape it) is no
    text a UTF-8 stream can write, unlike one with an accent. *)
Example encodable_examples :
  encodable utc_runtime
    (JObj [("name", JStr (String "237" (String "160" (String "128" ""))))]) "metric"
    = false /\
  encodable utc_runtime (JObj [("name", JStr "Orléans")]) "metric" = true /\
  encodable utc_runtime paris "metric" = true.
Proof. repeat split; vm_compute; reflexivity. Qed.

(** What else keeps a present sunrise or sunset from being printed: a
    main member that is not an object stops [show_weather] before any
    line, and a sunrise no [datetime] can hold stops it before the
    sunset. *)
Example sun_lines_lost :
  printed (events_of (show_weather utc_runtime
                        (JObj [("main", JInt 5);
                               ("sys", JObj [("sunrise", JInt 1700000000)])])
                        "metric")
             (world_of [] refusing)) = [header] /\
  printed (events_of (show_weather utc_runtime
                        (JObj [("sys", JObj [("sunrise", JInt 1000000000000000);
                                             ("sunset", JInt 1700040000)])])
                        "metric")
             (world_of [] refusing)) =
    [header; "Location: Unknown city, N/A"; "Temperature: No data°C";
     "Humidity: No data%"; "Wind Speed: No data m/s"].
Proof. split; vm_compute; reflexivity. Qed.

Lemma format_unix_time_epoch_witness :
  format_unix_time utc_runtime (JInt 0) = Ok "12:00 AM".
Proof. apply (format_unix_time_epoch utc_runtime). reflexivity. Defined.



Lemma show_weather_defaults_witness :
  fst (show_weather utc_runtime (JObj []) "metric" (world_of [] refusing)) = Ok tt /\
  (exists tail,
     printed (events_of (show_weather utc_runtime (JObj []) "metric")
                (world_of [] refusing)) =
       header :: "Location: Unknown city, N/A" :: "Temperature: No data°C"
       :: "Humidity: No data%" :: "Wind Speed: No data m/s" :: tail) /\
  (forall fallback, or_default utc_runtime None fallback = fallback).
Proof.
  apply (show_weather_defaults utc_runtime (JObj []) "metric" (world_of [] refusing));
    reflexivity.
Defined.

Lemma sun_lines_witness :
  (exists text, clock_12h (1700000000 + utcoffset utc_runtime 1700000000) text /\
     lines_of "Sunrise: "
       (events_of (show_weather utc_runtime paris "metric") (world_of [] refusing)) =
       ["Sunrise: " +:+ text]) /\
  (exists text, clock_12h (1700040000 + utcoffset utc_runtime 1700040000) text /\
     lines_of "Sunset:  "
       (events_of (show_weather utc_runtime paris "metric") (world_of [] refusing)) =
       ["Sunset:  " +:+ text]) /\
  lines_of "Sunrise: "
    (events_of (show_weather utc_runtime (JObj [("name", JStr "Paris")]) "metric")
       (world_of [] refusing)) = [] /\
  lines_of "Sunset:  "
    (events_of (show_weather utc_runtime (JObj [("name", JStr "Paris")]) "metric")
       (world_of [] refusing)) = [].
Proof.
  split; [|split; [|split]].
  - apply (proj1 (sun_lines utc_runtime paris "metric" (world_of [] refusing))
             (JInt 1700000000) 1700000000); reflexivity.
  - apply (proj1 (proj2 (sun_lines utc_runtime paris "metric" (world_of [] refusing)))
             (JInt 1700040000) 1700040000); reflexivity.
  - apply (proj1 (proj2 (proj2 (sun_lines utc_runtime (JObj [("name", JStr "Paris")])
                                  "metric" (world_of [] refusing)))));
      reflexivity.
  - apply (proj2 (proj2 (proj2 (sun_lines utc_runtime (JObj [("name", JStr "Paris")])
                                  "metric" (world_of [] refusing)))));
      reflexivity.
Defined.

(** *** Whole sessions *)

(** One city shown, then the exit command. *)
Example main_shows_paris :
  fst (main utc_runtime (session ["Paris"; "c"; "exit"] (answering paris))) = Ok tt /\
  trace (snd (main utc_runtime (session ["Paris"; "c"; "exit"] (answering paris)))) =
    [Print banner; Prompt city_prompt; Prompt units_prompt;
     HttpGet BASE_URL [("q", "Paris"); ("appid", "k"); ("units", "metric")];
     Print header; Print "Location: Paris, FR"; Print "Temperature: 21°C";
     Print "Humidity: 40%"; Print "Wind Speed: 3 m/s";
     Print "Sunrise: 10:13 PM"; Print "Sunset:  09:20 AM"; Print footer;
     Prompt city_prompt; Print "Goodbye!"].
Proof. split; vm_compute; reflexivity. Qed.

(** A refused connection: one line for the failure, the generic line of
    the loop, no weather block, and the city prompt again (where the
    input ends). *)
Example main_connection_refused :
  fst (main utc_runtime (session [" Paris "; "x"; "F"] refusing)) = Raise EOFError /\
  trace (snd (main utc_runtime (session [" Paris "; "x"; "F"] refusing))) =
    [Print banner; Prompt city_prompt; Prompt units_prompt;
     Print "Invalid option. Please enter C or F."; Prompt units_prompt;
     HttpGet BASE_URL [("q", "Paris"); ("appid", "k"); ("units", "imperial")];
     Print "❌ Network connection error. Check your internet.";
     Print (String.append "❌ No data returned. Try again." (String "010" ""));
     Prompt city_prompt].
Proof. split; vm_compute; reflexivity. Qed.

(** *** Further runs: fetch_weather *)

Lemma fetch_weather_raises_witness :
  (fst (fetch_weather utc_runtime client0 "Paris" "metric" (world_of [] interrupting)) =
     Raise (OtherError "KeyboardInterrupt") /\
   printed (events_of (fetch_weather utc_runtime client0 "Paris" "metric")
              (world_of [] interrupting)) = []) /\
  (fst (fetch_weather utc_runtime client0 "Paris" "metric" (world_of [] too_deep)) =
     Raise (OtherError "RecursionError") /\
   printed (events_of (fetch_weather utc_runtime client0 "Paris" "metric")
              (world_of [] too_deep)) = []).
Proof.
  assert (H1 : fst (fetch_weather utc_runtime client0 "Paris" "metric"
                      (world_of [] interrupting)) =
               Raise (OtherError "KeyboardInterrupt")).
  { apply (proj2 (proj1 (fetch_weather_raises utc_runtime client0 "Paris" "metric"
                           (world_of [] interrupting)
                           (OtherError "KeyboardInterrupt")))).
    split; [reflexivity | intros c err; discriminate]. }
  assert (H2 : fst (fetch_weather utc_runtime client0 "Paris" "metric"
                      (world_of [] too_deep)) =
               Raise (OtherError "RecursionError")).
  { apply (proj2 (proj1 (fetch_weather_raises utc_runtime client0 "Paris" "metric"
                           (world_of [] too_deep)
                           (OtherError "RecursionError")))).
    split; [reflexivity | intros c err; discriminate]. }
  split; (split; [assumption|]).
  - apply (proj2 (fetch_weather_raises utc_runtime client0 "Paris" "metric"
                    (world_of [] interrupting) (OtherError "KeyboardInterrupt"))).
    exact H1.
  - apply (proj2 (fetch_weather_raises utc_runtime client0 "Paris" "metric"
                    (world_of [] too_deep) (OtherError "RecursionError"))).
    exact H2.
Defined.

Lemma timeout_message_classes_witness :
  printed (events_of (fetch_weather utc_runtime client0 "Paris" "metric")
             (world_of [] stalling)) = ["❌ Request timed out."] /\
  printed (events_of (fetch_weather utc_runtime client0 "Paris" "metric")
             (world_of [] connect_timing_out)) =
    ["❌ Network connection error. Check your internet."].
Proof.
  split.
  - apply (proj2 (proj1 (timeout_message_classes utc_runtime client0 "Paris" "metric"
                           (world_of [] stalling) ReadTimeout "Read timed out."
                           eq_refl))).
    right. reflexivity.
  - apply (proj2 (timeout_message_classes utc_runtime client0 "Paris" "metric"
                    (world_of [] connect_timing_out) ConnectTimeout
                    "Connection timed out." eq_refl)).
    reflexivity.
Defined.

(** *** Further runs: format_unix_time *)

Lemma format_unix_time_outcomes_witness :
  (exists t text,
     timestamp_second utc_runtime (JInt 1700000000) = Some t /\
     format_unix_time utc_runtime (JInt 1700000000) = Ok text /\
     clock_12h (t + utcoffset utc_runtime t) text) /\
  is_timestamp utc_runtime (JInt 0) = true /\
  format_unix_time utc_runtime (JStr "06:12") = Raise TypeError /\
  (format_unix_time utc_runtime (JInt (-62135596800)) = Raise ValueError \/
   format_unix_time utc_runtime (JInt (-62135596800)) = Raise OverflowError \/
   format_unix_time utc_runtime (JInt (-62135596800)) = Raise OSError) /\
  format_unix_time utc_runtime (JInt 9223372036854775808) = Raise OverflowError.
Proof.
  split; [|split; [|split; [|split]]].
  - apply (proj1 (format_unix_time_outcomes utc_runtime (JInt 1700000000))).
    reflexivity.
  - apply (proj1 (proj2 (format_unix_time_outcomes utc_runtime (JInt 0)))).
    exists "12:00 AM". reflexivity.
  - apply (proj1 (proj2 (proj2 (format_unix_time_outcomes utc_runtime
                                  (JStr "06:12"))))).
    reflexivity.
  - apply (proj1 (proj2 (proj2 (proj2 (format_unix_time_outcomes utc_runtime
                                         (JInt (-62135596800)))))));
      reflexivity.
  - apply (proj2 (proj2 (proj2 (proj2 (format_unix_time_outcomes utc_runtime
                                         (JInt 9223372036854775808)))))
             9223372036854775808 eq_refl).
    right. reflexivity.
Defined.

Lemma format_unix_time_daily_witness :
  format_unix_time utc_runtime (JInt (1700000000 + 86400 * 365)) =
  format_unix_time utc_runtime (JInt 1700000000).
Proof.
  apply (format_unix_time_daily utc_runtime 1700000000 365); reflexivity.
Defined.

Lemma format_unix_time_half_day_witness :
  exists hh mm,
    (format_unix_time utc_runtime (JInt 1700000000) = Ok (hh +:+ ":" +:+ mm +:+ " AM") /\
     format_unix_time utc_runtime (JInt (1700000000 + 43200)) =
       Ok (hh +:+ ":" +:+ mm +:+ " PM")) \/
    (format_unix_time utc_runtime (JInt 1700000000) = Ok (hh +:+ ":" +:+ mm +:+ " PM") /\
     format_unix_time utc_runtime (JInt (1700000000 + 43200)) =
       Ok (hh +:+ ":" +:+ mm +:+ " AM")).
Proof.
  apply (format_unix_time_half_day utc_runtime 1700000000); reflexivity.
Defined.

(** *** Further runs: show_weather *)

Lemma show_weather_ill_shaped_witness :
  fst (show_weather utc_runtime null_sys "metric" (world_of [] refusing)) =
    Raise AttributeError /\
  events_of (show_weather utc_runtime null_sys "metric") (world_of [] refusing) =
    [Print header].
Proof.
  apply (show_weather_ill_shaped utc_runtime null_sys "metric" (world_of [] refusing)).
  reflexivity.
Defined.

Lemma show_weather_returns_witness :
  fst (show_weather utc_runtime paris "metric" (world_of [] refusing)) = Ok tt /\
  exists rise set,
    printed (events_of (show_weather utc_runtime paris "metric")
               (world_of [] refusing)) =
      [header; location_line utc_runtime paris;
       temperature_line utc_runtime paris "metric";
       humidity_line utc_runtime paris; wind_line utc_runtime paris]
      ++ rise ++ set ++ [footer] /\
    (rise = [] \/ exists text, rise = ["Sunrise: " +:+ text]) /\
    (set = [] \/ exists text, set = ["Sunset:  " +:+ text]).
Proof.
  assert (H : fst (show_weather utc_runtime paris "metric" (world_of [] refusing)) =
              Ok tt).
  { apply (proj2 (proj1 (show_weather_returns utc_runtime paris "metric"
                           (world_of [] refusing) eq_refl))).
    repeat split; reflexivity. }
  split; [exact H|].
  apply (proj2 (show_weather_returns utc_runtime paris "metric"
                  (world_of [] refusing) eq_refl)).
  exact H.
Defined.

Lemma show_weather_bad_sun_witness :
  (fst (show_weather utc_runtime text_sunrise "metric" (world_of [] refusing)) =
     Raise TypeError /\
   printed (events_of (show_weather utc_runtime text_sunrise "metric")
              (world_of [] refusing)) =
     [header; location_line utc_runtime text_sunrise;
      temperature_line utc_runtime text_sunrise "metric";
      humidity_line utc_runtime text_sunrise; wind_line utc_runtime text_sunrise]) /\
  ((fst (show_weather utc_runtime sunrise_beyond_localtime "metric"
           (world_of [] refusing)) = Raise ValueError \/
    fst (show_weather utc_runtime sunrise_beyond_localtime "metric"
           (world_of [] refusing)) = Raise OverflowError \/
    fst (show_weather utc_runtime sunrise_beyond_localtime "metric"
           (world_of [] refusing)) = Raise OSError) /\
   printed (events_of (show_weather utc_runtime sunrise_beyond_localtime "metric")
              (world_of [] refusing)) =
     [header; location_line utc_runtime sunrise_beyond_localtime;
      temperature_line utc_runtime sunrise_beyond_localtime "metric";
      humidity_line utc_runtime sunrise_beyond_localtime;
      wind_line utc_runtime sunrise_beyond_localtime]) /\
  (fst (show_weather utc_runtime text_sunset "metric" (world_of [] refusing)) =
     Raise TypeError /\
   lines_of "Sunset:  "
     (events_of (show_weather utc_runtime text_sunset "metric")
        (world_of [] refusing)) = [] /\
   ~ In footer (printed (events_of (show_weather utc_runtime text_sunset "metric")
                           (world_of [] refusing)))).
Proof.
  split; [|split].
  - apply (proj1 (show_weather_bad_sun utc_runtime text_sunrise "metric"
                    (world_of [] refusing) eq_refl eq_refl) (JStr "06:12"));
      reflexivity.
  - apply (proj1 (show_weather_bad_sun utc_runtime sunrise_beyond_localtime "metric"
                    (world_of [] refusing) eq_refl eq_refl)
             (JInt 100000000000000000));
      reflexivity.
  - apply (proj2 (show_weather_bad_sun utc_runtime text_sunset "metric"
                    (world_of [] refusing) eq_refl eq_refl) (JStr "17:05"));
      reflexivity.
Defined.


(** *** Further runs: get_units *)

Lemma get_units_skips_invalid_witness :
  fst (get_units utc_runtime (world_of ["x"; ""; " F "; "Paris"] refusing)) =
    Ok "imperial" /\
  stdin (snd (get_units utc_runtime (world_of ["x"; ""; " F "; "Paris"] refusing))) =
    ["Paris"] /\
  events_of (get_units utc_runtime) (world_of ["x"; ""; " F "; "Paris"] refusing) =
    [Prompt units_prompt; Print "Invalid option. Please enter C or F.";
     Prompt units_prompt; Print "Invalid option. Please enter C or F.";
     Prompt units_prompt].
Proof.
  apply (get_units_skips_invalid utc_runtime
           (world_of ["x"; ""; " F "; "Paris"] refusing) ["x"; ""] " F " ["Paris"]);
    reflexivity.
Defined.

Lemma get_units_end_of_input_witness :
  fst (get_units utc_runtime (world_of ["x"; "celsius"] refusing)) = Raise EOFError /\
  stdin (snd (get_units utc_runtime (world_of ["x"; "celsius"] refusing))) = [] /\
  events_of (get_units utc_runtime) (world_of ["x"; "celsius"] refusing) =
    [Prompt units_prompt; Print "Invalid option. Please enter C or F.";
     Prompt units_prompt; Print "Invalid option. Please enter C or F.";
     Prompt units_prompt].
Proof.
  apply (get_units_end_of_input utc_runtime (world_of ["x"; "celsius"] refusing)).
  reflexivity.
Defined.

(** *** Further runs: main *)

Lemma main_empty_api_key_witness :
  fst (main utc_runtime (empty_key_world ["Paris"; "c"] refusing)) = Ok tt /\
  events_of (main utc_runtime) (empty_key_world ["Paris"; "c"] refusing) =
    [Print no_api_key_message] /\
  stdin (snd (main utc_runtime (empty_key_world ["Paris"; "c"] refusing))) =
    ["Paris"; "c"].
Proof.
  apply (main_empty_api_key utc_runtime (empty_key_world ["Paris"; "c"] refusing)).
  vm_compute. reflexivity.
Defined.

Lemma main_end_of_input_witness :
  fst (main utc_runtime (session [] refusing)) = Raise EOFError /\
  events_of (main utc_runtime) (session [] refusing) =
    [Print banner; Prompt city_prompt].
Proof.
  apply (main_end_of_input utc_runtime (session [] refusing) "k");
    [vm_compute; reflexivity | discriminate | reflexivity].
Defined.

Lemma failed_fetch_turn_witness :
  fst (main_body utc_runtime client0 (world_of [" Paris "; "c"; "exit"] not_found)) =
    Ok Continue /\
  stdin (snd (main_body utc_runtime client0
                (world_of [" Paris "; "c"; "exit"] not_found))) = ["exit"] /\
  events_of (main_body utc_runtime client0)
    (world_of [" Paris "; "c"; "exit"] not_found) =
    turn_events client0 "Paris" "metric"
    ++ [Print "❌ HTTP Error: 404 Client Error: Not Found"; Print no_data_line].
Proof.
  apply (failed_fetch_turn utc_runtime client0
           (world_of [" Paris "; "c"; "exit"] not_found) " Paris " "c" ["exit"]
           HttpStatus "404 Client Error: Not Found");
    [reflexivity | discriminate | reflexivity | reflexivity].
Defined.

Lemma shown_turn_witness :
  events_of (main_body utc_runtime client0)
    (world_of [" New York "; "F"] (answering (JObj [("cod", JStr "200")]))) =
    turn_events client0 "New York" "imperial"
    ++ events_of (show_weather utc_runtime (JObj [("cod", JStr "200")]) "imperial")
         (world_of [" New York "; "F"] (answering (JObj [("cod", JStr "200")]))) /\
  fst (main_body utc_runtime client0
         (world_of [" New York "; "F"] (answering (JObj [("cod", JStr "200")])))) =
    match fst (show_weather utc_runtime (JObj [("cod", JStr "200")]) "imperial"
                 (world_of [" New York "; "F"]
                    (answering (JObj [("cod", JStr "200")])))) with
    | Ok _ => Ok Continue
    | Raise e => Raise e
    | Diverged => Diverged
    end /\
  stdin (snd (main_body utc_runtime client0
                (world_of [" New York "; "F"]
                   (answering (JObj [("cod", JStr "200")]))))) = [].
Proof.
  apply (shown_turn utc_runtime client0
           (world_of [" New York "; "F"] (answering (JObj [("cod", JStr "200")])))
           " New York " "F" [] [("cod", JStr "200")]);
    [reflexivity | discriminate | reflexivity | reflexivity | right; reflexivity].
Defined.

Lemma non_object_body_turn_witness :
  (fst (main_body utc_runtime client0 (world_of ["Paris"; "c"] (answering JNull))) =
     Ok Continue /\
   events_of (main_body utc_runtime client0)
     (world_of ["Paris"; "c"] (answering JNull)) =
     turn_events client0 "Paris" "metric" ++ [Print no_data_line]) /\
  (fst (main_body utc_runtime client0
          (world_of ["Paris"; "c"] (answering (JList [])))) = Raise AttributeError /\
   events_of (main_body utc_runtime client0)
     (world_of ["Paris"; "c"] (answering (JList []))) =
     turn_events client0 "Paris" "metric").
Proof.
  split.
  - apply (proj1 (non_object_body_turn utc_runtime client0
                    (world_of ["Paris"; "c"] (answering JNull)) "Paris" "c" [] JNull
                    eq_refl ltac:(discriminate) eq_refl eq_refl eq_refl)).
    reflexivity.
  - apply (proj2 (non_object_body_turn utc_runtime client0
                    (world_of ["Paris"; "c"] (answering (JList []))) "Paris" "c" []
                    (JList []) eq_refl ltac:(discriminate) eq_refl eq_refl eq_refl)).
    discriminate.
Defined.

Lemma main_requests_well_formed_witness :
  Forall (well_formed_request utc_runtime "k")
    (events_of (main utc_runtime) (session ["Paris"; "c"; "exit"] (answering paris))).
Proof.
  apply (main_requests_well_formed utc_runtime
           (session ["Paris"; "c"; "exit"] (answering paris)) "k").
  vm_compute. reflexivity.
Defined.

Lemma main_returns_only_on_exit_witness :
  exists line, In line ["Paris"; "c"; " Exit "] /\
               lower utc_runtime (strip utc_runtime line) = "exit".
Proof.
  apply (main_returns_only_on_exit utc_runtime
           (session ["Paris"; "c"; " Exit "] (answering paris)) "k");
    [vm_compute; reflexivity | discriminate | vm_compute; reflexivity].
Defined.

Lemma main_never_raises_requests_witness :
  fst (main utc_runtime (session ["Paris"; "c"] stalling)) = Raise EOFError /\
  EOFError <> RequestsError ReadTimeout "Read timed out.".
Proof.
  assert (H : fst (main utc_runtime (session ["Paris"; "c"] stalling)) = Raise EOFError)
    by (vm_compute; reflexivity).
  split; [exact H|].
  apply (main_never_raises_requests utc_runtime (session ["Paris"; "c"] stalling)
           EOFError H).
Defined.

Lemma api_key_source_witness :
  Forall (well_formed_request utc_runtime "from-env")
    (events_of (main utc_runtime) (two_keys_world ["Paris"; "c"; "exit"] refusing)) /\
  Forall (well_formed_request utc_runtime "from-file")
    (events_of (main utc_runtime) (dotenv_world ["Paris"; "c"; "exit"] refusing)).
Proof.
  split.
  - apply (proj1 (api_key_source utc_runtime
                    (two_keys_world ["Paris"; "c"; "exit"] refusing) "from-env")).
    vm_compute. reflexivity.
  - apply (proj2 (api_key_source utc_runtime
                    (dotenv_world ["Paris"; "c"; "exit"] refusing) "from-file"));
      vm_compute; reflexivity.
Defined.


